(** * Backup-YD: a shallow embedding of [main.py]

    The program builds the address of a cat picture with a caption, asks
    Yandex.Disk to fetch it into a folder, polls the asynchronous operation
    and writes a JSON manifest.  Everything it does is a conversation with
    the outside (HTTP, clock, console, progress bar, file system), so the
    embedding is a state-and-exception monad over a log of events, run
    against a [World] that answers the requests.

    Conventions.
    - A Python [str] is a Rocq [string] holding its UTF-8 bytes.  The only
      string operations of the program ([split] on an ASCII marker,
      concatenation, [quote], which works on the UTF-8 bytes anyway) give
      the same bytes either way.  A [str] with a lone surrogate has no
      UTF-8 encoding: the argument of [get_cat_with_text], where that
      matters, is a [pystr], which can hold one; the command line
      arguments and the strings of the JSON bodies are taken to have an
      encoding.
    - A Python [int] is a [Z]; a Python [float] is a binary64 number of
      [SpecFloat] (precision 53, emax 1024).
    - A value decoded by [response.json()] is a [json]; Python's [None]
      is [JNull]. *)

From Stdlib Require Import ZArith List Bool Ascii String Lia.
From Stdlib Require Import SpecFloat.
Import ListNotations.

Open Scope string_scope.
Open Scope Z_scope.
Open Scope list_scope.

Set Warnings "-register-all".

(** ** Python values that come out of [json.loads] *)

Inductive json : Type :=
| JNull
| JBool (b : bool)
| JInt (z : Z)
| JFloat (f : spec_float)
| JStr (s : string)
| JList (l : list json)
| JDict (d : list (string * json)).

(** binary64 *)
Definition prec : Z := 53.
Definition emax : Z := 1024.

Definition float_is_zero (f : spec_float) : bool :=
  match f with S754_zero _ => true | _ => false end.

(** [bool(v)]: what [if not v] tests. *)
Definition truthy (v : json) : bool :=
  match v with
  | JNull => false
  | JBool b => b
  | JInt z => negb (z =? 0)
  | JFloat f => negb (float_is_zero f)
  | JStr s => negb (s =? "")%string
  | JList l => match l with [] => false | _ => true end
  | JDict d => match d with [] => false | _ => true end
  end.

(** [bool(s)] for a value that is a [str] or [None]. *)
Definition truthy_str (o : option string) : bool :=
  match o with
  | None => false
  | Some s => negb (s =? "")%string
  end.

(** Lookup in a dict given as the list of its items. *)
Fixpoint assoc (k : string) (d : list (string * json)) : option json :=
  match d with
  | [] => None
  | (k', v) :: d' => if (k =? k')%string then Some v else assoc k d'
  end.

(** ** Exceptions and the monad *)

Inductive exn : Type :=
| RequestException   (* raised by requests.get/put/post on a transport failure *)
| JSONDecodeError    (* response.json() on a body that is not JSON *)
| AttributeError
| TypeError
| ValueError
| OverflowError
| OSError
| IndexError
| UnicodeEncodeError.

Inductive result (A : Type) : Type :=
| Val (a : A)
| Exc (e : exn).
Arguments Val {A} a.
Arguments Exc {A} e.

(** ** The outside *)

Inductive method := GET | PUT | POST.

Record request := mkRequest {
  meth : method;
  url : string;
  headers : list (string * string);
  params : list (string * string)
}.

(** What a call of the [requests] library gives: a response (status code
    and body, [None] when the body is not JSON), or a raised transport
    exception. *)
Inductive http_result : Type :=
| Response (status_code : Z) (body : option json)
| Failure.

(** [datetime.now()], seen through the two methods the program calls. *)
Record datetime := mkDatetime {
  isoformat : string;              (* .isoformat() *)
  strftime_stamp : string          (* .strftime('%Y%m%d_%H%M%S') *)
}.

(** The progress bar object: its counter [n] and its description. *)
Module Tqdm.
Record t := mk {
  total : Z;
  desc : string;
  unit : string;
  n : Z
}.
End Tqdm.
Definition tqdm : Type := Tqdm.t.

(** A piece of a printed line: literal text, or a value formatted by [str()]. *)
Inductive piece :=
| Txt (s : string)
| Obj (v : json).

Inductive event : Type :=
| EPrint (line : list piece)
| ESend (r : request)
| ESleep (seconds : Z)
| ENow
| EBar (bar : tqdm)                       (* the bar is (re)drawn *)
| EBarClose
| EWrite (name : string) (content : json). (* open(name, "w") and json.dump *)

Record World := mkWorld {
  (** the answer to the k-th sending (from 0) of a request *)
  respond : request -> nat -> http_result;
  (** the k-th reading of the clock *)
  clock : nat -> datetime;
  (** whether [open(name, "w")] succeeds *)
  writable : string -> bool;
  (** the builtin [int()] on a [str]; [None] is a ValueError *)
  int_of_str : string -> option Z
}.

Definition State := list event.

Definition M (A : Type) : Type := World -> State -> result A * State.

Definition ret {A} (a : A) : M A := fun _ s => (Val a, s).
Definition raise {A} (e : exn) : M A := fun _ s => (Exc e, s).
Definition bind {A B} (m : M A) (k : A -> M B) : M B :=
  fun w s =>
    match m w s with
    | (Val a, s') => k a w s'
    | (Exc e, s') => (Exc e, s')
    end.
(** [try: m  except Exception: h] *)
Definition try_except {A} (m : M A) (h : M A) : M A :=
  fun w s =>
    match m w s with
    | (Val a, s') => (Val a, s')
    | (Exc _, s') => h w s'
    end.
Definition emit (e : event) : M unit := fun _ s => (Val tt, s ++ [e]).

Declare Scope monad_scope.
Delimit Scope monad_scope with monad.
Notation "x <- m ;; k" := (bind m (fun x => k))
  (at level 61, m at next level, right associativity) : monad_scope.
Notation "m ;; k" := (bind m (fun _ => k))
  (at level 61, right associativity) : monad_scope.
Open Scope monad_scope.

Definition method_eqb (a b : method) : bool :=
  match a, b with
  | GET, GET | PUT, PUT | POST, POST => true
  | _, _ => false
  end.

Fixpoint pairs_eqb (a b : list (string * string)) : bool :=
  match a, b with
  | [], [] => true
  | (k, v) :: a', (k', v') :: b' =>
      (k =? k')%string && (v =? v')%string && pairs_eqb a' b'
  | _, _ => false
  end.

Definition request_eqb (a b : request) : bool :=
  method_eqb (meth a) (meth b) && (url a =? url b)%string
  && pairs_eqb (headers a) (headers b) && pairs_eqb (params a) (params b).

(** How many times [r] was sent so far. *)
Fixpoint sent (r : request) (s : State) : nat :=
  match s with
  | [] => O
  | ESend r' :: s' => ((if request_eqb r r' then 1 else 0) + sent r s')%nat
  | _ :: s' => sent r s'
  end.

Fixpoint clock_reads (s : State) : nat :=
  match s with
  | [] => O
  | ENow :: s' => S (clock_reads s')
  | _ :: s' => clock_reads s'
  end.

(** [requests.get/put/post]: returns the response or raises. *)
Definition send (r : request) : M (Z * option json) :=
  fun w s =>
    match respond w r (sent r s) with
    | Response c b => (Val (c, b), s ++ [ESend r])
    | Failure => (Exc RequestException, s ++ [ESend r])
    end.

(** [response.json()] *)
Definition response_json (b : option json) : M json :=
  match b with
  | Some v => ret v
  | None => raise JSONDecodeError
  end.

Definition print (line : list piece) : M unit := emit (EPrint line).
Definition sleep (seconds : Z) : M unit := emit (ESleep seconds).
Definition datetime_now : M datetime :=
  fun w s => (Val (clock w (clock_reads s)), s ++ [ENow]).

(** ** Python builtins used by the program *)

(** [v.get(key, default)]: only a dict has the method. *)
Definition dict_get (v : json) (key : string) (default : json) : M json :=
  match v with
  | JDict d => ret (match assoc key d with Some x => x | None => default end)
  | _ => raise AttributeError
  end.

(** [v == "literal"] *)
Definition py_eq_str (v : json) (s : string) : bool :=
  match v with
  | JStr t => (t =? s)%string
  | _ => false
  end.

Fixpoint startswith (p s : string) : bool :=
  match p, s with
  | EmptyString, _ => true
  | String a p', String b s' => Ascii.eqb a b && startswith p' s'
  | String _ _, EmptyString => false
  end.

(** [s.split(sep)] for a non-empty [sep]: the occurrences of [sep] are
    found from the left and do not overlap.  [skip] counts the characters
    of a found occurrence still to be passed, [cur] is the piece being
    collected. *)
Fixpoint split_from (sep : string) (skip : nat) (cur s : string) : list string :=
  match s with
  | EmptyString => [cur]
  | String c s' =>
      match skip with
      | S k => split_from sep k cur s'
      | O =>
          if startswith sep s
          then cur :: split_from sep (String.length sep - 1) "" s'
          else split_from sep 0 (cur ++ String c "")%string s'
      end
  end.

Definition split (sep s : string) : list string := split_from sep 0 "" s.

(** [v.split(sep)]: only a str has the method. *)
Definition str_split (v : json) (sep : string) : M (list string) :=
  match v with
  | JStr s => ret (split sep s)
  | _ => raise AttributeError
  end.

(** [parts[-1]] *)
Definition last_item (parts : list string) : M string :=
  match parts with
  | [] => raise IndexError
  | _ :: _ => ret (List.last parts "")
  end.

Fixpoint str_repeat (s : string) (k : nat) : string :=
  match k with
  | O => ""
  | S k' => (s ++ str_repeat s k')%string
  end.

Definition float_100 : spec_float := binary_normalize prec emax 100 0 false.

(** [v * 100] *)
Definition mul_100 (v : json) : M json :=
  match v with
  | JInt z => ret (JInt (z * 100))
  | JBool b => ret (JInt ((if b then 1 else 0) * 100))
  | JFloat f => ret (JFloat (SFmul prec emax f float_100))
  | JStr s => ret (JStr (str_repeat s 100))
  | JList l => ret (JList (List.concat (List.repeat l 100)))
  | JNull | JDict _ => raise TypeError
  end.

(** [int(v)]: truncation towards zero for a float. *)
Definition py_int (v : json) : M Z :=
  match v with
  | JInt z => ret z
  | JBool b => ret (if b then 1 else 0)
  | JFloat f =>
      match f with
      | S754_zero _ => ret 0
      | S754_finite sg m e =>
          ret (cond_Zopp sg (Z.quot (Zpos m * 2 ^ Z.max 0 e) (2 ^ Z.max 0 (- e))))
      | S754_infinity _ => raise OverflowError
      | S754_nan => raise ValueError
      end
  | JStr s =>
      fun w st => match int_of_str w s with
                  | Some z => (Val z, st)
                  | None => (Exc ValueError, st)
                  end
  | JNull | JList _ | JDict _ => raise TypeError
  end.

(** *** [urllib.parse.quote] with its default [safe='/'] *)

Definition in_range (lo hi c : ascii) : bool :=
  (nat_of_ascii lo <=? nat_of_ascii c)%nat && (nat_of_ascii c <=? nat_of_ascii hi)%nat.

Fixpoint str_mem (c : ascii) (s : string) : bool :=
  match s with
  | EmptyString => false
  | String d s' => Ascii.eqb c d || str_mem c s'
  end.

(** [_ALWAYS_SAFE]: letters, digits and [_.-~]. *)
Definition always_safe (c : ascii) : bool :=
  in_range "A" "Z" c || in_range "a" "z" c || in_range "0" "9" c
  || str_mem c "_.-~".

Definition hex_digit (k : nat) : ascii :=
  match String.get k "0123456789ABCDEF" with
  | Some c => c
  | None => "0"%char
  end.

(** ['%{:02X}'.format(byte)] *)
Definition percent (c : ascii) : string :=
  let k := nat_of_ascii c in
  String "%" (String (hex_digit (k / 16)) (String (hex_digit (k mod 16)) "")).

Fixpoint quote_from_bytes (bs safe : string) : string :=
  match bs with
  | EmptyString => ""
  | String c bs' =>
      ((if always_safe c || str_mem c safe then String c "" else percent c)
         ++ quote_from_bytes bs' safe)%string
  end.

(** [quote] on a text that has a UTF-8 encoding, given by that encoding. *)
Definition quote (text : string) : string := quote_from_bytes text "/".

(** A [str] as [quote] may receive it: runs of characters that have a UTF-8
    encoding, each run given by its bytes, and between them lone surrogates
    (code points D800 to DFFF), which have none. *)
Inductive chunk : Type :=
| Chars (utf8 : string)
| Lone (surrogate : N).

Definition pystr : Type := list chunk.

(** The [str] whose UTF-8 encoding is [b]. *)
Definition of_utf8 (b : string) : pystr := [Chars b].

(** The UTF-8 encoding of a [str], when it has one. *)
Fixpoint utf8 (text : pystr) : option string :=
  match text with
  | [] => Some ""
  | Chars b :: rest =>
      match utf8 rest with
      | Some tail => Some (b ++ tail)%string
      | None => None
      end
  | Lone _ :: _ => None
  end.

(** [text.encode('utf-8', 'strict')] *)
Definition encode_utf8 (text : pystr) : M string :=
  match utf8 text with
  | Some b => ret b
  | None => raise UnicodeEncodeError
  end.

(** [urllib.parse.quote(text)]: the text is encoded first, which raises on a
    lone surrogate. *)
Definition py_quote (text : pystr) : M string :=
  bs <- encode_utf8 text ;;
  ret (quote_from_bytes bs "/").

(** ** class YDConnector *)

Definition base_url : string := "https://cloud-api.yandex.net".

Record YDConnector := mkYDConnector { self_headers : list (string * string) }.

Definition YDConnector_init (token : string) : YDConnector :=
  mkYDConnector [("Authorization", ("OAuth " ++ token)%string)].

Definition create_folder_request (self : YDConnector) (folder_name : string) : request :=
  mkRequest PUT (base_url ++ "/v1/disk/resources")%string
            (self_headers self) [("path", folder_name)].

(** No [try] here: an exception of [requests.put] leaves the method. *)
Definition create_folder (self : YDConnector) (folder_name : string) : M bool :=
  response <- send (create_folder_request self folder_name) ;;
  ret ((fst response =? 201) || (fst response =? 409)).

Definition upload_request (self : YDConnector) (file_url file_path : string) : request :=
  mkRequest POST (base_url ++ "/v1/disk/resources/upload")%string
            (self_headers self) [("path", file_path); ("url", file_url)].

Definition marker : string := "operation_id=".

Definition upload_from_url (self : YDConnector) (file_url file_path : string)
  : M (option string) :=
  try_except
    (response <- send (upload_request self file_url file_path) ;;
     if negb (fst response =? 202) then ret None
     else
       j <- response_json (snd response) ;;
       href <- dict_get j "href" (JStr "") ;;
       parts <- str_split href marker ;;
       operation_id <- last_item parts ;;
       ret (Some operation_id))
    (ret None).

Definition status_request (self : YDConnector) (operation_id : string) : request :=
  mkRequest GET (base_url ++ "/v1/disk/operations/" ++ operation_id)%string
            (self_headers self) [].

Definition check_upload_status (self : YDConnector) (operation_id : string) : M json :=
  try_except
    (response <- send (status_request self operation_id) ;;
     if fst response =? 200 then response_json (snd response) else ret JNull)
    (ret JNull).

Definition file_info_request (self : YDConnector) (file_path : string) : request :=
  mkRequest GET (base_url ++ "/v1/disk/resources")%string
            (self_headers self) [("path", file_path)].

Definition get_file_info (self : YDConnector) (file_path : string) : M json :=
  try_except
    (response <- send (file_info_request self file_path) ;;
     if fst response =? 200 then response_json (snd response) else ret JNull)
    (ret JNull).

Definition check_token_request (self : YDConnector) : request :=
  mkRequest GET (base_url ++ "/v1/disk/")%string (self_headers self) [].

Definition check_token (self : YDConnector) : M bool :=
  try_except
    (response <- send (check_token_request self) ;;
     ret (fst response =? 200))
    (ret false).

(** ** class CatImageAPI *)

Definition cat_template : string := "https://cataas.com/cat/says/".

Definition get_cat_with_text (text : pystr) : M (option string) :=
  try_except
    (encoded_text <- py_quote text ;;
     ret (Some (cat_template ++ encoded_text)%string))
    (ret None).

(** ** The progress bar *)

(** [tqdm(total=..., desc=..., unit=...)]: the bar is drawn at once. *)
Definition tqdm_open (total : Z) (desc unit : string) : M tqdm :=
  let pbar := Tqdm.mk total desc unit 0 in
  emit (EBar pbar) ;; ret pbar.

(** [pbar.update(k)]: the counter grows by [k]. *)
Definition tqdm_update (pbar : tqdm) (k : Z) : M tqdm :=
  let pbar' := Tqdm.mk (Tqdm.total pbar) (Tqdm.desc pbar) (Tqdm.unit pbar)
                       (Tqdm.n pbar + k) in
  emit (EBar pbar') ;; ret pbar'.

(** [pbar.set_description(d)] *)
Definition tqdm_set_description (pbar : tqdm) (d : string) : M tqdm :=
  let pbar' := Tqdm.mk (Tqdm.total pbar) d (Tqdm.unit pbar) (Tqdm.n pbar) in
  emit (EBar pbar') ;; ret pbar'.

(** Leaving the [with] block closes the bar, also when the block raises. *)
Definition closing {A} (body : M A) : M A :=
  fun w s => let (r, s') := body w s in (r, s' ++ [EBarClose]).

(** ** main *)

(** The command line arguments, each given by its UTF-8 bytes. *)
Record Args := mkArgs { text : string; token : string; group : string }.

Inductive ctl := Next | Break.

(** One turn of the [for _ in range(20)] loop (lines 158-176). *)
Definition poll_once (yandex : YDConnector) (operation_id : string) (pbar : tqdm)
  : M (ctl * tqdm) :=
  status_info <- check_upload_status yandex operation_id ;;
  if negb (truthy status_info) then
    sleep 2 ;;
    ret (Next, pbar)
  else
    status <- dict_get status_info "status" JNull ;;
    if py_eq_str status "success" then
      pbar <- tqdm_update pbar (100 - Tqdm.n pbar) ;;
      ret (Break, pbar)
    else if py_eq_str status "failed" then
      pbar <- tqdm_set_description pbar "Ошибка загрузки" ;;
      print [Txt "ОШИБКА: Ошибка при загрузке: "; Obj status_info] ;;
      ret (Break, pbar)
    else
      p <- dict_get status_info "progress" (JInt 0) ;;
      p100 <- mul_100 p ;;
      progress <- py_int p100 ;;
      pbar <- tqdm_update pbar (Z.max 0 (progress - Tqdm.n pbar)) ;;
      sleep 2 ;;
      ret (Next, pbar).

Fixpoint for_range (k : nat) (body : tqdm -> M (ctl * tqdm)) (pbar : tqdm) : M tqdm :=
  match k with
  | O => ret pbar
  | S k' =>
      r <- body pbar ;;
      match r with
      | (Break, pbar') => ret pbar'
      | (Next, pbar') => for_range k' body pbar'
      end
  end.

(** The [with tqdm(...) as pbar:] block (lines 156-176). *)
Definition track_progress (yandex : YDConnector) (operation_id : string) : M tqdm :=
  closing
    (pbar <- tqdm_open 100 "Загрузка файла" "%" ;;
     for_range 20 (poll_once yandex operation_id) pbar).

(** [with open(name, "w", encoding="utf-8") as f: json.dump(v, f, ...)] *)
Definition write_json (name : string) (v : json) : M unit :=
  fun w s =>
    if writable w name then (Val tt, s ++ [EWrite name v])
    else (Exc OSError, s).

(** Lines 178-207. *)
Definition save_result (yandex : YDConnector) (args : Args)
           (cat_url file_name file_path : string) : M unit :=
  file_info <- get_file_info yandex file_path ;;
  if truthy file_info then
    t1 <- datetime_now ;;
    size <- dict_get file_info "size" (JInt 0) ;;
    path <- dict_get file_info "path" (JStr "") ;;
    let yandex_disk_url := ("https://disk.yandex.ru/client/disk/" ++ group args)%string in
    let backup_info :=
      JDict [("timestamp", JStr (isoformat t1));
             ("group_name", JStr (group args));
             ("text", JStr (text args));
             ("file_name", JStr file_name);
             ("file_size", size);
             ("file_path", path);
             ("yandex_disk_url", JStr yandex_disk_url);
             ("source_url", JStr cat_url)] in
    t2 <- datetime_now ;;
    let json_filename := ("backup_info_" ++ strftime_stamp t2 ++ ".json")%string in
    write_json json_filename backup_info ;;
    print [Txt "
=== ЗАГРУЗКА ЗАВЕРШЕНА УСПЕШНО! ==="] ;;
    print [Txt "Текст на картинке: "; Txt (text args)] ;;
    print [Txt "Имя файла: "; Txt file_name] ;;
    print [Txt "Размер файла: "; Obj size; Txt " байт"] ;;
    print [Txt "Путь на Яндекс.Диске: "; Txt file_path] ;;
    print [Txt "Посмотреть на Яндекс.Диске: "; Txt yandex_disk_url] ;;
    print [Txt "Информация сохранена в файл: "; Txt json_filename]
  else
    print [Txt "
ОШИБКА: Не удалось загрузить файл на Яндекс.Диск"].

Definition main (args : Args) : M unit :=
  print [Txt "=== Загрузка картинки кота на Яндекс.Диск ==="] ;;
  print [Txt "Текст на картинке: "; Txt (text args)] ;;
  print [Txt "Группа (папка): "; Txt (group args)] ;;
  print [Txt (str_repeat "=" 50)] ;;
  let yandex := YDConnector_init (token args) in
  print [Txt "Проверяем токен Яндекс.Диска..."] ;;
  ok <- check_token yandex ;;
  if negb ok then
    print [Txt "ОШИБКА: Неверный токен Яндекс.Диска"]
  else
  print [Txt "OK: Токен действителен"] ;;
  print [Txt "Создаем папку на Яндекс.Диске..."] ;;
  ok <- create_folder yandex (group args) ;;
  if negb ok then
    print [Txt "ОШИБКА: Не удалось создать папку, завершаем работу"]
  else
  print [Txt "OK: Папка создана/существует на Яндекс.Диске"] ;;
  print [Txt "Получаем картинку кота с текстом..."] ;;
  cat_url <- get_cat_with_text (of_utf8 (text args)) ;;
  if negb (truthy_str cat_url) then
    print [Txt "ОШИБКА: Не удалось получить картинку кота, завершаем работу"]
  else
  let cat_url := match cat_url with Some u => u | None => "" end in
  print [Txt "OK: Картинка получена: "; Txt cat_url] ;;
  let file_name := (text args ++ ".jpg")%string in
  let file_path := (group args ++ "/" ++ file_name)%string in
  print [Txt "Имя файла на Яндекс.Диске: "; Txt file_name] ;;
  print [Txt "Полный путь: "; Txt file_path] ;;
  print [Txt "Запускаем загрузку на Яндекс.Диск..."] ;;
  operation_id <- upload_from_url yandex cat_url file_path ;;
  if negb (truthy_str operation_id) then
    print [Txt "ОШИБКА: Ошибка при запуске загрузки"]
  else
  let operation_id := match operation_id with Some i => i | None => "" end in
  print [Txt "Отслеживаем прогресс загрузки..."] ;;
  _ <- track_progress yandex operation_id ;;
  save_result yandex args cat_url file_name file_path.

(** ** Vocabulary of the statements *)

(** [sep] occurs in [s]. *)
Definition occurs (sep s : string) : Prop :=
  exists a b, s = (a ++ sep ++ b)%string.

Fixpoint drop (k : nat) (s : string) : string :=
  match k, s with
  | O, _ => s
  | S k', String _ s' => drop k' s'
  | S _, EmptyString => ""
  end.

(** No proper suffix of [sep] is a prefix of it: two occurrences of [sep]
    cannot overlap. *)
Definition borderless (sep : string) : bool :=
  forallb (fun d => negb (startswith (drop d sep) sep))
          (seq 1 (String.length sep - 1)).

(** A decision procedure for [occurs]. *)
Fixpoint occursb (sep s : string) : bool :=
  startswith sep s
  || match s with
     | EmptyString => false
     | String _ s' => occursb sep s'
     end.

(** The run gets as far as the polling loop with operation id
    [operation_id]: the token is accepted, the folder is there, the upload
    is accepted and the id cut out of [href] is not empty. *)
Definition started (args : Args) (w : World) (operation_id : string) : Prop :=
  let yandex := YDConnector_init (token args) in
  let file_path := (group args ++ "/" ++ text args ++ ".jpg")%string in
  let cat_url := (cat_template ++ quote (text args))%string in
  (exists b, respond w (check_token_request yandex) 0 = Response 200 b) /\
  (exists c b, respond w (create_folder_request yandex (group args)) 0 = Response c b
               /\ (c = 201 \/ c = 409)) /\
  (exists d href,
      respond w (upload_request yandex cat_url file_path) 0
        = Response 202 (Some (JDict d))
      /\ assoc "href" d = Some (JStr href)
      /\ List.last (split marker href) "" = operation_id) /\
  operation_id <> "".

(** What has been logged when the polling loop is entered. *)
Definition startup_trace (args : Args) : State :=
  let yandex := YDConnector_init (token args) in
  let file_name := (text args ++ ".jpg")%string in
  let file_path := (group args ++ "/" ++ file_name)%string in
  let cat_url := (cat_template ++ quote (text args))%string in
  [ EPrint [Txt "=== Загрузка картинки кота на Яндекс.Диск ==="];
    EPrint [Txt "Текст на картинке: "; Txt (text args)];
    EPrint [Txt "Группа (папка): "; Txt (group args)];
    EPrint [Txt (str_repeat "=" 50)];
    EPrint [Txt "Проверяем токен Яндекс.Диска..."];
    ESend (check_token_request yandex);
    EPrint [Txt "OK: Токен действителен"];
    EPrint [Txt "Создаем папку на Яндекс.Диске..."];
    ESend (create_folder_request yandex (group args));
    EPrint [Txt "OK: Папка создана/существует на Яндекс.Диске"];
    EPrint [Txt "Получаем картинку кота с текстом..."];
    EPrint [Txt "OK: Картинка получена: "; Txt cat_url];
    EPrint [Txt "Имя файла на Яндекс.Диске: "; Txt file_name];
    EPrint [Txt "Полный путь: "; Txt file_path];
    EPrint [Txt "Запускаем загрузку на Яндекс.Диск..."];
    ESend (upload_request yandex cat_url file_path);
    EPrint [Txt "Отслеживаем прогресс загрузки..."] ].

(** *** The answers of the status endpoint *)

(** What [check_upload_status] makes of an answer. *)
Definition payload_of (out : http_result) : json :=
  match out with
  | Response c (Some v) => if c =? 200 then v else JNull
  | _ => JNull
  end.

Definition member (d : list (string * json)) (key : string) (default : json) : json :=
  match assoc key d with
  | Some x => x
  | None => default
  end.

(** A terminal status value. *)
Definition terminal (status : json) : bool :=
  py_eq_str status "success" || py_eq_str status "failed".

Definition finite_float (f : spec_float) : bool :=
  match f with
  | S754_zero _ | S754_finite _ _ _ => true
  | S754_infinity _ | S754_nan => false
  end.

(** A progress value the loop can display: a number whose hundredfold is
    finite. *)
Definition progress_ok (p : json) : bool :=
  match p with
  | JInt _ | JBool _ => true
  | JFloat f => finite_float (SFmul prec emax f float_100)
  | _ => false
  end.

(** A binary64 number of magnitude below 2^53: a zero, or a mantissa of at
    most 53 bits with an exponent that is not positive.  Every fraction
    between 0 and 1 is one. *)
Definition modest_float (f : spec_float) : bool :=
  match f with
  | S754_zero _ => true
  | S754_finite _ m e => (Zpos (digits2_pos m) <=? 53) && (e <=? 0)
  | S754_infinity _ | S754_nan => false
  end.

(** A status payload that is not terminal: a dict whose status is neither
    "success" nor "failed" and whose progress, when present, is a number. *)
Definition running (v : json) : bool :=
  match v with
  | JDict d => negb (terminal (member d "status" JNull))
               && progress_ok (member d "progress" (JInt 0))
  | _ => false
  end.

(** A poll that brings no terminal status: none (or a payload that counts
    as false), or a non-terminal payload. *)
Definition no_news (out : http_result) : bool :=
  negb (truthy (payload_of out)) || running (payload_of out).

(** [int(p * 100)] *)
Definition shown_percent (w : World) (p : json) : result Z :=
  fst ((p100 <- mul_100 p ;; py_int p100) w []).

(** The events one turn of the loop may log while nothing is decided. *)
Definition poll_event (r : request) (e : event) : Prop :=
  e = ESend r \/ (exists bar, e = EBar bar) \/ e = ESleep 2.

(** The doubles nearest to 0.3 and 0.6: what [json.loads] makes of them. *)
Definition float_0_3 : spec_float := S754_finite false 5404319552844595 (-54).
Definition float_0_6 : spec_float := S754_finite false 5404319552844595 (-53).
Definition float_0_29 : spec_float := S754_finite false 5224175567749775 (-54).
Definition float_1 : spec_float := S754_finite false 4503599627370496 (-52).

(** The bar of the polling loop when its counter shows [k]. *)
Definition bar (k : Z) : tqdm := Tqdm.mk 100 "Загрузка файла" "%" k.

(** The files written during a run. *)
Fixpoint writes (s : State) : list (string * json) :=
  match s with
  | [] => []
  | EWrite name content :: s' => (name, content) :: writes s'
  | _ :: s' => writes s'
  end.

(** The requests sent during a run. *)
Fixpoint requests (s : State) : list request :=
  match s with
  | [] => []
  | ESend r :: s' => r :: requests s'
  | _ :: s' => requests s'
  end.

(** A computation only adds to the log. *)
Definition extends {A} (m : M A) : Prop :=
  forall w s, exists evs, snd (m w s) = s ++ evs.

(** The reserved characters of a URL (RFC 3986, 2.2): gen-delims and
    sub-delims. *)
Definition reserved (c : ascii) : bool := str_mem c ":/?#[]@!$&'()*+,;=".

(** *** The end-to-end scenario *)

(** Every backing call succeeds: the run gets to the loop, the first poll
    says "success", the file info is the dict [info] with size 1234, and
    files can be written. *)
Definition all_succeed (args : Args) (w : World) (info : list (string * json)) : Prop :=
  let yandex := YDConnector_init (token args) in
  let file_path := (group args ++ "/" ++ text args ++ ".jpg")%string in
  exists operation_id,
    started args w operation_id
    /\ (exists d, respond w (status_request yandex operation_id) 0
                  = Response 200 (Some (JDict d))
                  /\ assoc "status" d = Some (JStr "success"))
    /\ respond w (file_info_request yandex file_path) 0 = Response 200 (Some (JDict info))
    /\ assoc "size" info = Some (JInt 1234)
    /\ (forall name, writable w name = true).

(** The scenario as the specification words it: whatever else the file
    info holds, the manifest has the local path. *)
Definition manifest_as_specified : Prop :=
  forall token w info,
    all_succeed (mkArgs "hi" token "cats") w info ->
    exists name m,
      writes (snd (main (mkArgs "hi" token "cats") w [])) = [(name, JDict m)]
      /\ assoc "file_name" m = Some (JStr "hi.jpg")
      /\ assoc "file_path" m = Some (JStr "cats/hi.jpg")
      /\ assoc "file_size" m = Some (JInt 1234).

(** The encoding as the specification words it: no reserved character of
    the text is left as it is in the encoded part of the address. *)
Definition quote_as_specified : Prop :=
  forall (text : pystr) w s,
    exists encoded,
      fst (get_cat_with_text text w s) = Val (Some (cat_template ++ encoded)%string)
      /\ forall c b, reserved c = true -> utf8 text = Some b -> str_mem c b = true ->
                     str_mem c encoded = false.

(** *** The polls as the specification words them *)

(** A poll that returns none or a non-terminal payload, with nothing said
    about the progress. *)
Definition non_terminal_or_none (out : http_result) : bool :=
  negb (truthy (payload_of out))
  || match payload_of out with
     | JDict d => negb (terminal (member d "status" JNull))
     | _ => false
     end.

(** The exhausted budget as the specification words it: twenty such polls,
    and the loop ends without an exception and the file info is asked for. *)
Definition budget_as_specified : Prop :=
  forall args w operation_id,
    let yandex := YDConnector_init (token args) in
    let file_path := (group args ++ "/" ++ text args ++ ".jpg")%string in
    started args w operation_id ->
    (forall j, (j < 20)%nat ->
               non_terminal_or_none (respond w (status_request yandex operation_id) j)
               = true) ->
    (exists pbar s1,
        track_progress yandex operation_id w (startup_trace args) = (Val pbar, s1))
    /\ In (ESend (file_info_request yandex file_path)) (snd (main args w [])).

(** ** Sample worlds *)

(** [int()] on an ASCII string, as the sample worlds answer it: blanks
    around (tab to carriage return, and the space), a sign, decimal digits
    with single underscores between them, and at most 4300 digits.  On a
    string with other characters, among which Python knows more blanks and
    digits, the sample worlds answer [None]; none of them is asked about
    one. *)
Definition is_blank (c : ascii) : bool :=
  let k := nat_of_ascii c in
  ((9 <=? k)%nat && (k <=? 13)%nat) || (k =? 32)%nat.

Definition is_digit (c : ascii) : bool := in_range "0" "9" c.

Fixpoint lstrip (s : string) : string :=
  match s with
  | EmptyString => ""
  | String c r => if is_blank c then lstrip r else s
  end.

Fixpoint str_rev (s : string) : string :=
  match s with
  | EmptyString => ""
  | String c r => (str_rev r ++ String c "")%string
  end.

Definition strip (s : string) : string := str_rev (lstrip (str_rev (lstrip s))).

(** The digits read so far give [acc]; [count] digits were read; [after_digit]
    tells whether the last character was a digit. *)
Fixpoint digits_value (acc : Z) (count : nat) (after_digit : bool) (s : string)
  : option (Z * nat) :=
  match s with
  | EmptyString => if after_digit then Some (acc, count) else None
  | String c r =>
      if is_digit c then
        digits_value (10 * acc + Z.of_nat (nat_of_ascii c - 48)) (S count) true r
      else if Ascii.eqb c "_" then
        (if after_digit then digits_value acc count false r else None)
      else None
  end.

Definition ascii_int (s : string) : option Z :=
  let t := strip s in
  let signed :=
    match t with
    | String c r =>
        if Ascii.eqb c "-" then (true, r)
        else if Ascii.eqb c "+" then (false, r)
        else (false, t)
    | EmptyString => (false, t)
    end in
  match digits_value 0 0 false (snd signed) with
  | Some (v, digits) =>
      if (digits <=? 4300)%nat then Some (if fst signed then - v else v) else None
  | None => None
  end.

(** A world that answers by endpoint: the token check, the folder
    creation, the upload, the k-th status poll and the file info. *)
Definition scripted (check mkdir upload : http_result) (polls : nat -> http_result)
           (info : http_result) : World :=
  mkWorld
    (fun r k =>
       match meth r with
       | PUT => mkdir
       | POST => upload
       | GET =>
           if (url r =? base_url ++ "/v1/disk/")%string then check
           else if (url r =? base_url ++ "/v1/disk/resources")%string then info
           else polls k
       end)
    (fun _ => mkDatetime "2024-01-01T00:00:00" "20240101_000000")
    (fun _ => true)
    ascii_int.

Definition ok_200 : http_result := Response 200 (Some (JDict [])).
Definition created : http_result := Response 201 (Some (JDict [])).
Definition accepted (href : string) : http_result :=
  Response 202 (Some (JDict [("href", JStr href); ("method", JStr "GET")])).
Definition sample_href : string :=
  "https://cloud-api.yandex.net/v1/disk/operations?operation_id=ABC123".
Definition in_progress (p : spec_float) : http_result :=
  Response 200 (Some (JDict [("status", JStr "in-progress"); ("progress", JFloat p)])).
Definition status_only (st : string) : http_result :=
  Response 200 (Some (JDict [("status", JStr st)])).
Definition null_progress : http_result :=
  Response 200 (Some (JDict [("status", JStr "in-progress"); ("progress", JNull)])).
Definition sample_args : Args := mkArgs "hi" "secret" "cats".

(** The scenario with a file info that reports the size and nothing else. *)
Definition bare_info_world : World :=
  scripted ok_200 created (accepted sample_href)
           (fun _ => status_only "success")
           (Response 200 (Some (JDict [("size", JInt 1234)]))).

(** ** Vocabulary of the further properties *)

(** The sum of a measure over a log. *)
Fixpoint total (c : event -> nat) (s : State) : nat :=
  match s with
  | [] => O
  | e :: s' => (c e + total c s')%nat
  end.

Definition is_send (e : event) : nat :=
  match e with ESend _ => 1%nat | _ => O end.

Definition is_write (e : event) : nat :=
  match e with EWrite _ _ => 1%nat | _ => O end.

Definition is_clock_read (e : event) : nat :=
  match e with ENow => 1%nat | _ => O end.

Definition sleep_seconds (e : event) : nat :=
  match e with ESleep z => Z.to_nat z | _ => O end.

(** Whatever the world answers, the computation only adds events that
    satisfy [P], and their measure [c] sums up to [bound] at most. *)
Definition emits {A} (P : event -> Prop) (c : event -> nat) (bound : nat) (m : M A)
  : Prop :=
  forall w s, exists evs,
    snd (m w s) = s ++ evs /\ Forall P evs /\ (total c evs <= bound)%nat.

(** A request of the client: to the API host, with the OAuth header. *)
Definition api_request (token : string) (r : request) : bool :=
  startswith base_url (url r)
  && pairs_eqb (headers r) [("Authorization", ("OAuth " ++ token)%string)].

Definition api_event (token : string) (e : event) : Prop :=
  match e with
  | ESend r => api_request token r = true
  | _ => True
  end.

(** The events of the polling loop. *)
Definition loop_event (r : request) (e : event) : Prop :=
  match e with
  | ESend r' => r' = r
  | ESleep z => z = 2
  | EBar _ | EPrint _ | EBarClose => True
  | ENow | EWrite _ _ => False
  end.

(** The counters that the bar shows, in order. *)
Fixpoint bar_counts (s : State) : list Z :=
  match s with
  | [] => []
  | EBar b :: s' => Tqdm.n b :: bar_counts s'
  | _ :: s' => bar_counts s'
  end.

(** The value of a hexadecimal digit. *)
Definition hex_value (c : ascii) : nat :=
  match String.index 0 (String c "") "0123456789ABCDEF" with
  | Some k => k
  | None => O
  end.

(** Undoes the escapes of [quote]. *)
Fixpoint percent_decode (s : string) : string :=
  match s with
  | EmptyString => ""
  | String c r =>
      if Ascii.eqb c "%" then
        match r with
        | String h (String l r') =>
            String (ascii_of_nat (16 * hex_value h + hex_value l)) (percent_decode r')
        | _ => String c (percent_decode r)
        end
      else String c (percent_decode r)
  end.

(** The characters that [quote] leaves alone. *)
Definition kept (c : ascii) : bool := always_safe c || Ascii.eqb c "/".

Fixpoint all_kept (s : string) : bool :=
  match s with
  | EmptyString => true
  | String c s' => kept c && all_kept s'
  end.

(** [suffix] ends [s]. *)
Definition ends_with (suffix s : string) : Prop :=
  exists pre, s = (pre ++ suffix)%string.

(** The counters never go down, starting from [lo]. *)
Fixpoint nondecreasing (lo : Z) (l : list Z) : Prop :=
  match l with
  | [] => True
  | x :: l' => lo <= x /\ nondecreasing x l'
  end.

(** What a poll reports for the bar: nothing when it brings no payload,
    [int(progress * 100)] when it brings one whose progress can be shown. *)
Definition report (w : World) (out : http_result) : option Z :=
  if truthy (payload_of out) then
    match payload_of out with
    | JDict d =>
        match shown_percent w (member d "progress" (JInt 0)) with
        | Val z => Some z
        | Exc _ => None
        end
    | _ => None
    end
  else None.

(** The counters of a bar that shows [lo] and, at each report, is raised to
    the report when that is higher and redrawn as it is otherwise. *)
Fixpoint counters (lo : Z) (reports : list (option Z)) : list Z :=
  match reports with
  | [] => []
  | None :: rest => counters lo rest
  | Some z :: rest => Z.max lo z :: counters (Z.max lo z) rest
  end.

Definition float_1_5 : spec_float := S754_finite false 6755399441055744 (-52).

(** The same world with a file system that refuses every write. *)
Definition read_only (w : World) : World :=
  mkWorld (respond w) (clock w) (fun _ => false) (int_of_str w).

(** * Proofs *)

(** ** The model on small inputs *)

Example split_two_markers :
  split marker "operation_id=Aoperation_id=B" = [""; "A"; "B"].
Proof. reflexivity. Qed.

Example split_overlapping : split "aa" "aaa" = [""; "a"].
Proof. reflexivity. Qed.

Example split_without_separator : split "x" "abc" = ["abc"] /\ split "x" "" = [""].
Proof. split; reflexivity. Qed.

Example quote_reserved :
  quote ":/?#[]@!$&'()*+,;="
  = "%3A/%3F%23%5B%5D%40%21%24%26%27%28%29%2A%2B%2C%3B%3D".
Proof. reflexivity. Qed.

Example quote_utf8 : quote "кот" = "%D0%BA%D0%BE%D1%82" /\ quote "100%" = "100%25".
Proof. split; reflexivity. Qed.

(** [int(0.29 * 100)] is 28: the product is rounded to
    28.999999999999996 and then truncated. *)
Example int_of_float_product (w : World) :
  shown_percent w (JFloat float_0_29) = Val 28
  /\ shown_percent w (JFloat float_1) = Val 100
  /\ shown_percent w (JFloat S754_nan) = Exc ValueError
  /\ shown_percent w JNull = Exc TypeError.
Proof. repeat split; reflexivity. Qed.

(** A progress that is a string is repeated a hundred times and then read
    as a number. *)
Example int_of_str_samples :
  ascii_int " 12 " = Some 12
  /\ ascii_int "1_000" = Some 1000
  /\ ascii_int "-1_2" = Some (-12)
  /\ ascii_int "+7" = Some 7
  /\ ascii_int "_1" = None
  /\ ascii_int "1__0" = None
  /\ ascii_int "1_" = None
  /\ ascii_int "- 1" = None
  /\ ascii_int "1 2" = None
  /\ ascii_int "" = None
  /\ ascii_int (str_repeat "1" 4300) <> None
  /\ ascii_int (str_repeat "1" 4301) = None
  /\ shown_percent bare_info_world (JStr "0") = Val 0
  /\ shown_percent bare_info_world (JStr "ab") = Exc ValueError.
Proof. repeat split; try (vm_compute; reflexivity). vm_compute. discriminate. Qed.

(** [quote] raises on a lone surrogate, and the function answers [None]. *)
Example lone_surrogate (w : World) :
  utf8 [Chars "a"; Lone 56575] = None
  /\ fst (py_quote [Chars "a"; Lone 56575] w []) = Exc UnicodeEncodeError
  /\ fst (get_cat_with_text [Chars "a"; Lone 56575] w []) = Val None
  /\ fst (get_cat_with_text [Chars "a"; Chars " b"] w [])
     = Val (Some "https://cataas.com/cat/says/a%20b")
  /\ fst (get_cat_with_text [] w []) = Val (Some "https://cataas.com/cat/says/").
Proof. repeat split; reflexivity. Qed.

(** ** Strings and [split] *)

Lemma append_nil_r (s : string) : (s ++ "")%string = s.
Proof. induction s as [|c s IH]; simpl; [reflexivity | now rewrite IH]. Qed.

Lemma append_assoc (a b c : string) :
  ((a ++ b) ++ c)%string = (a ++ (b ++ c))%string.
Proof. induction a as [|x a IH]; simpl; [reflexivity | now rewrite IH]. Qed.

Lemma length_append (a b : string) :
  String.length (a ++ b) = (String.length a + String.length b)%nat.
Proof. induction a as [|x a IH]; simpl; [reflexivity | now rewrite IH]. Qed.

Lemma startswith_append (p r : string) : startswith p (p ++ r) = true.
Proof.
  induction p as [|a p IH]; simpl; [reflexivity|].
  now rewrite Ascii.eqb_refl, IH.
Qed.

Lemma startswith_inv (p s : string) :
  startswith p s = true -> exists r, s = (p ++ r)%string.
Proof.
  revert s; induction p as [|a p IH]; intros s H.
  - now exists s.
  - destruct s as [|b s]; simpl in H; [discriminate|].
    apply andb_true_iff in H as [Hab Hps].
    apply Ascii.eqb_eq in Hab; subst b.
    destruct (IH _ Hps) as [r ->]. now exists r.
Qed.

Lemma startswith_drop (pre p t : string) :
  startswith p (pre ++ t) = true ->
  startswith (drop (String.length pre) p) t = true.
Proof.
  revert p; induction pre as [|c pre IH]; intros p H; simpl in *.
  - destruct p; exact H.
  - destruct p as [|a p]; [reflexivity|].
    simpl in H. apply andb_true_iff in H as [_ H]. now apply IH.
Qed.

Lemma startswith_shorter (x q rest : string) :
  startswith x (q ++ rest) = true ->
  (String.length x <= String.length q)%nat ->
  startswith x q = true.
Proof.
  revert q; induction x as [|a x IH]; intros q H L; [reflexivity|].
  destruct q as [|b q]; simpl in *; [lia|].
  apply andb_true_iff in H as [Hab H]. rewrite Hab. simpl.
  apply IH; [exact H | lia].
Qed.

Lemma length_drop (k : nat) (s : string) :
  String.length (drop k s) = (String.length s - k)%nat.
Proof.
  revert s; induction k as [|k IH]; intros [|c s]; simpl; auto.
Qed.

Lemma append_split_long (p r a b : string) :
  (p ++ r)%string = (a ++ b)%string ->
  (String.length p <= String.length a)%nat ->
  exists a', a = (p ++ a')%string /\ r = (a' ++ b)%string.
Proof.
  revert a; induction p as [|x p IH]; intros a E L; simpl in *.
  - now exists a.
  - destruct a as [|y a]; simpl in *; [lia|].
    injection E as -> E.
    destruct (IH a E ltac:(lia)) as (a' & -> & ->). now exists a'.
Qed.

Lemma split_from_skip (sep x y cur : string) :
  split_from sep (String.length x) cur (x ++ y) = split_from sep 0 cur y.
Proof. induction x as [|c x IH]; simpl; [reflexivity | exact IH]. Qed.

Lemma split_from_nonempty sep k cur s : split_from sep k cur s <> [].
Proof.
  revert k cur; induction s as [|c s IH]; intros k cur; simpl; [discriminate|].
  destruct k; [|apply IH].
  destruct (startswith sep (String c s)); [discriminate | apply IH].
Qed.

Lemma split_from_match (sep r cur : string) :
  sep <> "" ->
  split_from sep 0 cur (sep ++ r) = cur :: split_from sep 0 "" r.
Proof.
  intros Hne. destruct sep as [|a sep]; [contradiction|].
  change (String a sep ++ r)%string with (String a (sep ++ r)).
  cbn [split_from].
  change (String a (sep ++ r)) with (String a sep ++ r)%string.
  rewrite startswith_append.
  cbn [String.length]. rewrite Nat.sub_succ, Nat.sub_0_r.
  now rewrite split_from_skip.
Qed.

Lemma split_from_absent (sep s cur : string) :
  ~ occurs sep s -> split_from sep 0 cur s = [(cur ++ s)%string].
Proof.
  revert cur; induction s as [|c s IH]; intros cur H.
  - simpl. now rewrite append_nil_r.
  - cbn [split_from].
    destruct (startswith sep (String c s)) eqn:E.
    + exfalso. apply H. apply startswith_inv in E as [r E].
      exists "", r. exact E.
    + rewrite IH.
      * now rewrite append_assoc.
      * intros (a & b & ->). apply H. now exists (String c a), b.
Qed.

Lemma last_cons_nonempty {A} (x d : A) (l : list A) :
  l <> [] -> List.last (x :: l) d = List.last l d.
Proof. destruct l; [contradiction | reflexivity]. Qed.

Section SplitLast.
Variable sep : string.
Hypothesis sep_borderless : borderless sep = true.
Hypothesis sep_nonempty : sep <> "".

Lemma no_border (d : nat) :
  (0 < d < String.length sep)%nat -> startswith (drop d sep) sep = false.
Proof.
  intros Hd. unfold borderless in sep_borderless.
  rewrite forallb_forall in sep_borderless.
  apply negb_true_iff, sep_borderless, in_seq. lia.
Qed.

Lemma last_split_from (id : string) :
  ~ occurs sep id ->
  forall (k : nat) (pre cur : string),
    (String.length pre <= k)%nat ->
    List.last (split_from sep 0 cur (pre ++ sep ++ id)) "" = id.
Proof.
  intros Hid. induction k as [|k IH]; intros pre cur L.
  - destruct pre; [|simpl in L; lia]. simpl append.
    rewrite split_from_match by assumption.
    rewrite (split_from_absent _ _ _ Hid). reflexivity.
  - destruct pre as [|c pre].
    + apply (IH ""). simpl; lia.
    + destruct (startswith sep (String c pre ++ sep ++ id)) eqn:E.
      * destruct (Nat.le_gt_cases (String.length sep) (String.length (String c pre)))
          as [Hlong | Hshort].
        -- destruct (startswith_inv _ _ E) as [r Er].
           symmetry in Er.
           destruct (append_split_long _ _ _ _ Er Hlong) as (pre' & Hp & Hr).
           rewrite Hp, append_assoc, split_from_match by assumption.
           rewrite last_cons_nonempty by apply split_from_nonempty.
           apply IH.
           assert (String.length (String c pre) =
                   (String.length sep + String.length pre')%nat)
             by (rewrite Hp; apply length_append).
           destruct sep; [contradiction | simpl in *; lia].
        -- exfalso.
           apply startswith_drop in E.
           apply startswith_shorter in E; [|rewrite length_drop; lia].
           rewrite no_border in E; [discriminate | simpl in *; lia].
      * change (String c pre ++ sep ++ id)%string
          with (String c (pre ++ sep ++ id)) in *.
        cbn [split_from]. rewrite E. apply IH. simpl in L; lia.
Qed.
End SplitLast.

Lemma marker_borderless : borderless marker = true.
Proof. reflexivity. Qed.

(** The last piece of [split] is what follows the last marker. *)
Lemma split_marker_last (pre id : string) :
  ~ occurs marker id ->
  List.last (split marker (pre ++ marker ++ id)) "" = id.
Proof.
  intros H. unfold split.
  apply (last_split_from marker marker_borderless ltac:(discriminate) id H
                         (String.length pre)). lia.
Qed.

Lemma occurs_occursb sep s : occurs sep s -> occursb sep s = true.
Proof.
  intros (a & b & ->). induction a as [|c a IH].
  - cbn [append]. destruct (sep ++ b)%string eqn:E; cbn [occursb];
      rewrite <- E, startswith_append; reflexivity.
  - cbn [append occursb]. rewrite IH. apply orb_true_r.
Qed.

Lemma occursb_false sep s : occursb sep s = false -> ~ occurs sep s.
Proof. intros H Ho. apply occurs_occursb in Ho. congruence. Qed.

(** ** Each client method as a function of the answer it gets *)

Lemma check_token_run self w s :
  check_token self w s =
    (Val match respond w (check_token_request self) (sent (check_token_request self) s) with
         | Response c _ => c =? 200
         | Failure => false
         end,
     s ++ [ESend (check_token_request self)]).
Proof.
  unfold check_token, try_except, bind, send, ret.
  destruct (respond w _ _); reflexivity.
Qed.

Lemma create_folder_run self folder w s :
  create_folder self folder w s =
    (match respond w (create_folder_request self folder)
                   (sent (create_folder_request self folder) s) with
     | Response c _ => Val ((c =? 201) || (c =? 409))
     | Failure => Exc RequestException
     end,
     s ++ [ESend (create_folder_request self folder)]).
Proof.
  unfold create_folder, bind, send, ret.
  destruct (respond w _ _); reflexivity.
Qed.

Lemma last_item_run parts w s :
  parts <> [] -> last_item parts w s = (Val (List.last parts ""), s).
Proof. destruct parts; [contradiction | reflexivity]. Qed.

(** Evaluates a count of earlier sendings over a log whose shape is known. *)
Ltac count_sent :=
  match goal with
  | |- context [sent ?r ?s] =>
      let v := eval vm_compute in (sent r s) in
      change (sent r s) with v
  end.

Lemma upload_from_url_run self file_url file_path w s :
  upload_from_url self file_url file_path w s =
    (Val match respond w (upload_request self file_url file_path)
                       (sent (upload_request self file_url file_path) s) with
         | Response c b =>
             if c =? 202 then
               match b with
               | Some (JDict d) =>
                   match assoc "href" d with
                   | Some (JStr href) => Some (List.last (split marker href) "")
                   | Some _ => None
                   | None => Some ""
                   end
               | _ => None
               end
             else None
         | Failure => None
         end,
     s ++ [ESend (upload_request self file_url file_path)]).
Proof.
  unfold upload_from_url, try_except, bind, send.
  destruct (respond w _ _) as [c b|]; [|reflexivity].
  cbn [fst snd].
  destruct (c =? 202); cbn [negb]; [|reflexivity].
  destruct b as [[| | | | | |d]|]; try reflexivity.
  cbn [response_json dict_get ret].
  destruct (assoc "href" d) as [[| | | |href| |]|]; try reflexivity.
  cbn [str_split ret]. unfold split.
  rewrite last_item_run by apply split_from_nonempty. reflexivity.
Qed.

(** From [started] on, [main] is the polling loop followed by
    [save_result], entered with the log [startup_trace]. *)
Lemma get_cat_with_text_utf8 text w s :
  get_cat_with_text (of_utf8 text) w s
  = (Val (Some (cat_template ++ quote text)%string), s).
Proof.
  unfold get_cat_with_text, py_quote, encode_utf8, of_utf8, try_except, bind, ret.
  cbn [utf8]. rewrite append_nil_r. reflexivity.
Qed.

Lemma main_started args w op :
  started args w op ->
  main args w [] =
    (_ <- track_progress (YDConnector_init (token args)) op ;;
     save_result (YDConnector_init (token args)) args
                 (cat_template ++ quote (text args))
                 (text args ++ ".jpg")
                 (group args ++ "/" ++ text args ++ ".jpg")) w (startup_trace args).
Proof.
  intros ((b0 & H0) & (c1 & b1 & H1 & Hc) & (d & href & H2 & Hh & Hop) & Hne).
  unfold main.
  cbv [bind print emit].
  rewrite check_token_run. cbn [app]. count_sent. rewrite H0. cbn [Z.eqb Pos.eqb negb].
  rewrite create_folder_run. cbn [app]. count_sent.
  rewrite H1.
  replace ((c1 =? 201) || (c1 =? 409)) with true
    by (destruct Hc; subst; reflexivity).
  cbn [negb app].
  rewrite get_cat_with_text_utf8. cbv [truthy_str].
  assert (Hurl : ((cat_template ++ quote (text args)) =? "")%string = false)
    by reflexivity.
  rewrite Hurl. cbn [negb app].
  rewrite upload_from_url_run. cbn [app]. count_sent.
  rewrite H2. cbn [Z.eqb Pos.eqb]. rewrite Hh, Hop.
  apply String.eqb_neq in Hne. rewrite Hne. cbn [negb].
  reflexivity.
Qed.

(** ** The request log *)

Lemma pairs_eqb_refl l : pairs_eqb l l = true.
Proof.
  induction l as [|[k v] l IH]; simpl; [reflexivity|].
  now rewrite !String.eqb_refl, IH.
Qed.

Lemma request_eqb_refl r : request_eqb r r = true.
Proof.
  unfold request_eqb. rewrite String.eqb_refl, !pairs_eqb_refl.
  destruct (meth r); reflexivity.
Qed.

Lemma sent_app r s s' : sent r (s ++ s') = (sent r s + sent r s')%nat.
Proof.
  induction s as [|e s IH]; simpl; [reflexivity|].
  destruct e; rewrite IH; try reflexivity. lia.
Qed.

(** ** Multiplying a modest float by 100 stays finite *)

Lemma digits2_pos_size p : digits2_pos p = Pos.size p.
Proof. induction p; simpl; congruence. Qed.

Lemma digits_gt p : Zpos p < 2 ^ Zpos (digits2_pos p).
Proof.
  rewrite digits2_pos_size. pose proof (Pos.size_gt p) as H.
  apply Pos2Z.pos_lt_pos in H. now rewrite Pos2Z.inj_pow in H.
Qed.

Lemma digits_le p k : 0 <= k -> Zpos p < 2 ^ k -> Zpos (digits2_pos p) <= k.
Proof.
  intros Hk Hp. rewrite digits2_pos_size.
  pose proof (Pos.size_le p) as H.
  apply Pos2Z.pos_le_pos in H. rewrite Pos2Z.inj_pow in H.
  change (Zpos p~0) with (2 * Zpos p) in H.
  assert (2 ^ Zpos (Pos.size p) < 2 ^ (k + 1))
    by (rewrite Z.pow_add_r, Z.pow_1_r by lia; lia).
  apply Z.pow_lt_mono_r_iff in H0; lia.
Qed.

Lemma shr_1_shrinks mrs :
  0 <= shr_m mrs -> 0 <= shr_m (shr_1 mrs) <= shr_m mrs.
Proof.
  destruct mrs as [m r s]. cbn [shr_m]. intros Hm.
  destruct m as [|[p|p|]|p]; cbn; lia.
Qed.

Lemma iter_shr_1_shrinks k :
  forall mrs, 0 <= shr_m mrs -> 0 <= shr_m (iter_pos shr_1 k mrs) <= shr_m mrs.
Proof.
  induction k as [k IH|k IH|]; intros mrs Hm; cbn [iter_pos].
  - pose proof (shr_1_shrinks mrs Hm) as H1.
    pose proof (IH _ (proj1 H1)) as H2.
    pose proof (IH _ (proj1 H2)) as H3. lia.
  - pose proof (IH _ Hm) as H2.
    pose proof (IH _ (proj1 H2)) as H3. lia.
  - now apply shr_1_shrinks.
Qed.

Lemma shr_fexp_bounds m e l :
  0 <= m ->
  let '(mrs, e') := shr_fexp prec emax m e l in
  0 <= shr_m mrs <= m /\ e' <= Z.max e (fexp prec emax (Zdigits2 m + e)).
Proof.
  intros Hm. unfold shr_fexp, shr.
  assert (Hrec : shr_m (shr_record_of_loc m l) = m) by (destruct l as [|[]]; reflexivity).
  destruct (fexp prec emax (Zdigits2 m + e) - e) as [|k|k] eqn:E.
  - rewrite Hrec. lia.
  - pose proof (iter_shr_1_shrinks k (shr_record_of_loc m l)) as H.
    rewrite Hrec in H. split; [now apply H | lia].
  - rewrite Hrec. lia.
Qed.

Lemma round_nearest_even_bounds m l :
  m <= round_nearest_even m l <= m + 1.
Proof.
  unfold round_nearest_even. destruct l as [|[]]; try lia.
  destruct (Z.even m); lia.
Qed.

Lemma Zdigits2_le m k : 0 <= m < 2 ^ k -> 0 <= k -> Zdigits2 m <= k.
Proof.
  intros [Hm Hlt] Hk. destruct m as [|p|p]; cbn [Zdigits2]; [lia| |lia].
  now apply digits_le.
Qed.

Lemma binary_round_aux_finite sx p ex :
  Zpos (digits2_pos p) <= 200 -> ex <= 0 ->
  finite_float (binary_round_aux prec emax sx (Zpos p) ex loc_Exact) = true.
Proof.
  intros Hd Hex. unfold binary_round_aux.
  pose proof (shr_fexp_bounds (Zpos p) ex loc_Exact ltac:(lia)) as H1.
  destruct (shr_fexp prec emax (Zpos p) ex loc_Exact) as [mrs1 e1].
  destruct H1 as [Hm1 He1].
  pose proof (round_nearest_even_bounds (shr_m mrs1) (loc_of_shr_record mrs1)) as Hr.
  set (m1 := round_nearest_even (shr_m mrs1) (loc_of_shr_record mrs1)) in *.
  pose proof (shr_fexp_bounds m1 e1 loc_Exact ltac:(lia)) as H2.
  destruct (shr_fexp prec emax m1 e1 loc_Exact) as [mrs2 e2].
  destruct H2 as [Hm2 He2].
  destruct (shr_m mrs2) as [|q|q]; [reflexivity| |lia].
  assert (Hp : Zpos p < 2 ^ 200).
  { pose proof (digits_gt p).
    assert (2 ^ Zpos (digits2_pos p) <= 2 ^ 200) by (apply Z.pow_le_mono_r; lia).
    lia. }
  assert (Hd1 : Zdigits2 m1 <= 201).
  { apply Zdigits2_le; [|lia]. change (2 ^ 201) with (2 * 2 ^ 200). lia. }
  cbn [Zdigits2] in He1.
  unfold fexp, emin, prec, emax in *.
  replace (e2 <=? 1024 - 53) with true by (symmetry; apply Z.leb_le; lia).
  reflexivity.
Qed.

Lemma float_100_value : float_100 = S754_finite false 7036874417766400 (-46).
Proof. reflexivity. Qed.

(** A modest float times 100 is again finite: [int(progress * 100)] is
    defined for it. *)
Lemma modest_progress_ok f : modest_float f = true -> progress_ok (JFloat f) = true.
Proof.
  unfold progress_ok. rewrite float_100_value.
  destruct f as [s|s| |s m e]; try discriminate; intros H; [reflexivity|].
  cbn [modest_float] in H. apply andb_true_iff in H as [Hm He].
  apply Z.leb_le in Hm, He.
  cbn [SFmul]. apply binary_round_aux_finite; [|lia].
  apply digits_le; [lia|].
  pose proof (digits_gt m).
  assert (2 ^ Zpos (digits2_pos m) <= 2 ^ 53) by (apply Z.pow_le_mono_r; lia).
  rewrite Pos2Z.inj_mul.
  assert (7036874417766400 < 2 ^ 53) by reflexivity.
  change (2 ^ 200) with (2 ^ 53 * 2 ^ 147).
  apply Z.mul_lt_mono_nonneg; lia.
Qed.

(** A non-terminal payload whose progress is missing or a modest float
    brings no news. *)
Lemma modest_payload_no_news d :
  terminal (member d "status" JNull) = false ->
  (assoc "progress" d = None
   \/ exists f, assoc "progress" d = Some (JFloat f) /\ modest_float f = true) ->
  no_news (Response 200 (Some (JDict d))) = true.
Proof.
  intros Ht Hp. unfold no_news. cbn [payload_of Z.eqb Pos.eqb running].
  rewrite Ht. cbn [negb andb]. unfold member at 1.
  destruct Hp as [-> | (f & -> & Hf)].
  - apply orb_true_r.
  - rewrite (modest_progress_ok f Hf). apply orb_true_r.
Qed.

(** ** One turn of the polling loop *)

Lemma check_upload_status_run self op w s :
  check_upload_status self op w s =
    (Val (payload_of (respond w (status_request self op)
                              (sent (status_request self op) s))),
     s ++ [ESend (status_request self op)]).
Proof.
  unfold check_upload_status, try_except, bind, send, payload_of.
  destruct (respond w _ _) as [c [v|]|]; cbn [fst snd]; try reflexivity;
    destruct (c =? 200); reflexivity.
Qed.

Lemma shown_percent_run w p s :
  (p100 <- mul_100 p ;; py_int p100) w s = (shown_percent w p, s).
Proof.
  unfold shown_percent.
  destruct p as [| b | z | f | t | l | d];
    cbv [mul_100 py_int ret raise bind fst]; try reflexivity.
  - destruct (SFmul prec emax f float_100); reflexivity.
  - destruct (int_of_str w _); reflexivity.
Qed.

Lemma progress_ok_shown w p :
  progress_ok p = true -> exists z, shown_percent w p = Val z.
Proof.
  unfold shown_percent.
  destruct p as [| b | z | f | t | l | d];
    cbv [progress_ok finite_float mul_100 py_int ret raise bind fst];
    try discriminate; intros H.
  - now eexists.
  - now eexists.
  - destruct (SFmul prec emax f float_100); try discriminate; now eexists.
Qed.

Lemma bind_assoc {A B C} (m : M A) (f : A -> M B) (k : B -> M C) w s :
  bind (bind m f) k w s = bind m (fun x => bind (f x) k) w s.
Proof. unfold bind. destruct (m w s) as [[a|e] s']; reflexivity. Qed.

Lemma bind_percent {C} p (k : Z -> M C) w s :
  (p100 <- mul_100 p ;; progress <- py_int p100 ;; k progress) w s =
    match shown_percent w p with
    | Val z => k z w s
    | Exc e => (Exc e, s)
    end.
Proof.
  rewrite <- bind_assoc. unfold bind at 1. now rewrite shown_percent_run.
Qed.

Section Poll.
Variables (self : YDConnector) (op : string) (w : World).

Local Abbreviation req := (status_request self op).

Lemma poll_once_none pbar s :
  truthy (payload_of (respond w req (sent req s))) = false ->
  poll_once self op pbar w s = (Val (Next, pbar), s ++ [ESend req; ESleep 2]).
Proof.
  intros H. unfold poll_once, bind at 1.
  rewrite check_upload_status_run. rewrite H. cbn.
  now rewrite <- app_assoc.
Qed.

Lemma poll_once_running pbar s d z :
  payload_of (respond w req (sent req s)) = JDict d ->
  d <> [] ->
  terminal (member d "status" JNull) = false ->
  shown_percent w (member d "progress" (JInt 0)) = Val z ->
  let pbar' := Tqdm.mk (Tqdm.total pbar) (Tqdm.desc pbar) (Tqdm.unit pbar)
                       (Tqdm.n pbar + Z.max 0 (z - Tqdm.n pbar)) in
  poll_once self op pbar w s =
    (Val (Next, pbar'), s ++ [ESend req; EBar pbar'; ESleep 2]).
Proof.
  intros Hp Hd Ht Hz pbar'. unfold poll_once, bind at 1.
  rewrite check_upload_status_run. rewrite Hp.
  replace (truthy (JDict d)) with true by (destruct d; [contradiction | reflexivity]).
  cbn [negb]. unfold bind at 1. cbn [dict_get ret].
  fold (member d "status" JNull).
  apply orb_false_iff in Ht as [-> ->].
  unfold bind at 1. cbn [dict_get ret]. fold (member d "progress" (JInt 0)).
  rewrite bind_percent, Hz. cbn. now rewrite <- !app_assoc.
Qed.

Lemma poll_once_success pbar s d :
  payload_of (respond w req (sent req s)) = JDict d ->
  d <> [] ->
  py_eq_str (member d "status" JNull) "success" = true ->
  let pbar' := Tqdm.mk (Tqdm.total pbar) (Tqdm.desc pbar) (Tqdm.unit pbar)
                       (Tqdm.n pbar + (100 - Tqdm.n pbar)) in
  poll_once self op pbar w s = (Val (Break, pbar'), s ++ [ESend req; EBar pbar']).
Proof.
  intros Hp Hd Ht pbar'. unfold poll_once, bind at 1.
  rewrite check_upload_status_run. rewrite Hp.
  replace (truthy (JDict d)) with true by (destruct d; [contradiction | reflexivity]).
  cbn [negb]. unfold bind at 1. cbn [dict_get ret].
  fold (member d "status" JNull). rewrite Ht.
  cbn. now rewrite <- !app_assoc.
Qed.

Lemma poll_once_failed pbar s d :
  payload_of (respond w req (sent req s)) = JDict d ->
  d <> [] ->
  py_eq_str (member d "status" JNull) "failed" = true ->
  let pbar' := Tqdm.mk (Tqdm.total pbar) "Ошибка загрузки" (Tqdm.unit pbar)
                       (Tqdm.n pbar) in
  poll_once self op pbar w s =
    (Val (Break, pbar'),
     s ++ [ESend req; EBar pbar';
           EPrint [Txt "ОШИБКА: Ошибка при загрузке: "; Obj (JDict d)]]).
Proof.
  intros Hp Hd Ht pbar'. unfold poll_once, bind at 1.
  rewrite check_upload_status_run. rewrite Hp.
  replace (truthy (JDict d)) with true by (destruct d; [contradiction | reflexivity]).
  cbn [negb]. unfold bind at 1. cbn [dict_get ret].
  fold (member d "status" JNull).
  replace (py_eq_str (member d "status" JNull) "success") with false.
  2:{ destruct (member d "status" JNull) as [| | | |t| |]; try reflexivity.
      simpl in *. apply String.eqb_eq in Ht. now subst t. }
  rewrite Ht. cbn. now rewrite <- !app_assoc.
Qed.

Lemma poll_once_no_news pbar s :
  no_news (respond w req (sent req s)) = true ->
  exists pbar' evs,
    poll_once self op pbar w s = (Val (Next, pbar'), s ++ ESend req :: evs)
    /\ sent req evs = 0%nat
    /\ Forall (poll_event req) evs
    /\ Tqdm.n pbar <= Tqdm.n pbar'.
Proof.
  unfold no_news. intros H.
  destruct (truthy (payload_of (respond w req (sent req s)))) eqn:Ht.
  - cbn in H.
    destruct (payload_of (respond w req (sent req s))) as [| | | | | |d] eqn:Hp;
      try discriminate.
    apply andb_true_iff in H as [Hs Hpr]. apply negb_true_iff in Hs.
    destruct (progress_ok_shown w _ Hpr) as [z Hz].
    eexists _, [_; _]. split; [|split; [|split]].
    + apply (poll_once_running pbar s d z Hp); [|exact Hs|exact Hz].
      intros ->; cbn in Ht; discriminate.
    + reflexivity.
    + apply Forall_cons; [right; left; eexists; reflexivity|].
      apply Forall_cons; [right; right; reflexivity | apply Forall_nil].
    + cbn. lia.
  - exists pbar, [ESleep 2]. split; [|split; [|split]].
    + now apply poll_once_none.
    + reflexivity.
    + apply Forall_cons; [right; right; reflexivity | apply Forall_nil].
    + lia.
Qed.

(** [k] polls without news use up [k] turns and nothing else happens. *)
Lemma for_range_no_news (k m : nat) :
  forall pbar s,
    (forall j, (j < k)%nat -> no_news (respond w req (sent req s + j)) = true) ->
    exists pbar' evs,
      for_range (k + m) (poll_once self op) pbar w s
        = for_range m (poll_once self op) pbar' w (s ++ evs)
      /\ sent req evs = k
      /\ Forall (poll_event req) evs.
Proof.
  induction k as [|k IH]; intros pbar s H.
  - exists pbar, []. rewrite app_nil_r. repeat split; constructor.
  - destruct (poll_once_no_news pbar s) as (pbar1 & e1 & Hrun & Hs1 & He1 & _).
    { rewrite <- (Nat.add_0_r (sent req s)). apply H. lia. }
    destruct (IH pbar1 (s ++ ESend req :: e1)) as (pbar' & evs & Hloop & Hs & He).
    { intros j Hj. rewrite sent_app. cbn [sent]. rewrite request_eqb_refl, Hs1.
      replace (sent req s + (1 + 0) + j)%nat with (sent req s + S j)%nat by lia.
      apply H. lia. }
    exists pbar', (ESend req :: e1 ++ evs). split; [|split].
    + cbn [Nat.add for_range]. unfold bind at 1. rewrite Hrun.
      rewrite Hloop. now rewrite <- app_assoc.
    + cbn [sent]. rewrite request_eqb_refl, sent_app, Hs1, Hs. reflexivity.
    + constructor; [left; reflexivity|]. apply Forall_app. now split.
Qed.
End Poll.

(** ** The log only grows *)

Lemma extends_ret {A} (a : A) : extends (ret a).
Proof. intros w s. exists []. now rewrite app_nil_r. Qed.

Lemma extends_raise {A} e : extends (@raise A e).
Proof. intros w s. exists []. now rewrite app_nil_r. Qed.

Lemma extends_emit e : extends (emit e).
Proof. intros w s. now exists [e]. Qed.

Lemma extends_bind {A B} (m : M A) (k : A -> M B) :
  extends m -> (forall a, extends (k a)) -> extends (bind m k).
Proof.
  intros Hm Hk w s. unfold bind.
  destruct (Hm w s) as [e1 H1].
  destruct (m w s) as [[a|e] s1]; cbn [snd] in *; subst s1.
  - destruct (Hk a w (s ++ e1)) as [e2 H2]. rewrite H2.
    exists (e1 ++ e2). now rewrite app_assoc.
  - now exists e1.
Qed.

Lemma extends_datetime_now : extends datetime_now.
Proof. intros w s. now exists [ENow]. Qed.

Lemma extends_write_json name v : extends (write_json name v).
Proof.
  intros w s. unfold write_json. destruct (writable w name).
  - now eexists.
  - exists []. now rewrite app_nil_r.
Qed.

Lemma extends_dict_get v key default : extends (dict_get v key default).
Proof. destruct v; (apply extends_ret || apply extends_raise). Qed.

Lemma extends_if {A} (b : bool) (m1 m2 : M A) :
  extends m1 -> extends m2 -> extends (if b then m1 else m2).
Proof. now destruct b. Qed.

Create HintDb log.

#[local] Hint Resolve extends_ret extends_raise extends_emit extends_datetime_now
  extends_write_json extends_dict_get extends_if : log.
#[local] Hint Extern 1 (extends (print _)) => apply extends_emit : log.
#[local] Hint Extern 1 (extends (sleep _)) => apply extends_emit : log.
#[local] Hint Extern 2 (extends (bind _ _)) => apply extends_bind; [|intro] : log.

Lemma get_file_info_run self file_path w s :
  get_file_info self file_path w s =
    (Val (payload_of (respond w (file_info_request self file_path)
                              (sent (file_info_request self file_path) s))),
     s ++ [ESend (file_info_request self file_path)]).
Proof.
  unfold get_file_info, try_except, bind, send, payload_of.
  destruct (respond w _ _) as [c [v|]|]; cbn [fst snd]; try reflexivity;
    destruct (c =? 200); reflexivity.
Qed.

(** Whatever the loop brought, [save_result] asks for the file info first. *)
Lemma save_result_asks self args cat_url file_name file_path w s :
  exists rest,
    snd (save_result self args cat_url file_name file_path w s)
    = s ++ ESend (file_info_request self file_path) :: rest.
Proof.
  unfold save_result, bind at 1. rewrite get_file_info_run.
  match goal with
  | |- context [(if ?b then ?m1 else ?m2) w ?s1] =>
      assert (E : extends (if b then m1 else m2)) by auto 20 with log;
      destruct (E w s1) as [rest ->]
  end.
  exists rest. now rewrite <- app_assoc.
Qed.

(** ** The client methods *)

(** C8: [check_token] never raises; it returns [True] on status 200 and
    [False] on any other status and on a transport exception. *)
Theorem check_token_only_200 self w s :
  let out := respond w (check_token_request self) (sent (check_token_request self) s) in
  (forall body, out = Response 200 body -> fst (check_token self w s) = Val true)
  /\ (forall c body, out = Response c body -> c <> 200 ->
      fst (check_token self w s) = Val false)
  /\ (out = Failure -> fst (check_token self w s) = Val false).
Proof.
  intros out. rewrite check_token_run. fold out. cbn [fst].
  repeat split.
  - now intros body ->.
  - intros c body -> Hc. apply Z.eqb_neq in Hc. now rewrite Hc.
  - now intros ->.
Qed.

Lemma check_token_only_200_witness :
  fst (check_token (YDConnector_init "expired")
                   (scripted (Response 401 None) created Failure (fun _ => Failure) Failure)
                   []) = Val false
  /\ fst (check_token (YDConnector_init "expired")
                      (scripted Failure created Failure (fun _ => Failure) Failure)
                      []) = Val false
  /\ fst (check_token (YDConnector_init "secret")
                      (scripted ok_200 created Failure (fun _ => Failure) Failure)
                      []) = Val true.
Proof.
  split; [|split].
  - apply (proj1 (proj2 (check_token_only_200 _ _ _))) with (c := 401) (body := None).
    + reflexivity.
    + discriminate.
  - apply (proj2 (proj2 (check_token_only_200 _ _ _))). reflexivity.
  - apply (proj1 (check_token_only_200 _ _ _)) with (body := Some (JDict [])).
    reflexivity.
Defined.

(** [create_folder] on a response: [True] exactly for 201 and 409. *)
Lemma create_folder_status self folder w s c body :
  respond w (create_folder_request self folder)
          (sent (create_folder_request self folder) s) = Response c body ->
  fst (create_folder self folder w s) = Val ((c =? 201) || (c =? 409)).
Proof. intros H. now rewrite create_folder_run, H. Qed.

(** C1: the folder creation has no [try]: when [requests.put] raises, the
    exception leaves [create_folder], and [main], which calls it outside any
    [try], ends with that exception instead of printing its message. *)
Theorem create_folder_transport_failure_raises args w :
  let yandex := YDConnector_init (token args) in
  (exists body, respond w (check_token_request yandex) 0 = Response 200 body) ->
  respond w (create_folder_request yandex (group args)) 0 = Failure ->
  fst (create_folder yandex (group args) w []) = Exc RequestException
  /\ fst (main args w []) = Exc RequestException.
Proof.
  intros yandex [body H0] H1. split.
  - rewrite create_folder_run. cbn [sent]. now rewrite H1.
  - unfold main. cbv [bind print emit].
    rewrite check_token_run. cbn [app]. count_sent. fold yandex. rewrite H0.
    cbn [Z.eqb Pos.eqb negb].
    rewrite create_folder_run. cbn [app]. count_sent. fold yandex.
    now rewrite H1.
Qed.

Lemma create_folder_transport_failure_raises_witness :
  fst (main sample_args
            (scripted ok_200 Failure Failure (fun _ => Failure) Failure) [])
  = Exc RequestException.
Proof.
  apply (create_folder_transport_failure_raises
           sample_args (scripted ok_200 Failure Failure (fun _ => Failure) Failure)).
  - eexists. reflexivity.
  - reflexivity.
Defined.

(** C9: when the token check does not answer 200 (another status, or no
    answer at all), [main] returns normally after its message: the only
    request of the run is the token check, so no folder is created, and no
    file is written. *)
Theorem bad_token_stops_the_run args w :
  let yandex := YDConnector_init (token args) in
  (forall body, respond w (check_token_request yandex) 0 <> Response 200 body) ->
  fst (main args w []) = Val tt
  /\ requests (snd (main args w [])) = [check_token_request yandex]
  /\ sent (create_folder_request yandex (group args)) (snd (main args w [])) = 0%nat
  /\ writes (snd (main args w [])) = []
  /\ List.last (snd (main args w [])) ENow
     = EPrint [Txt "ОШИБКА: Неверный токен Яндекс.Диска"].
Proof.
  intros yandex H.
  assert (E : main args w [] =
              (Val tt,
               [ EPrint [Txt "=== Загрузка картинки кота на Яндекс.Диск ==="];
                 EPrint [Txt "Текст на картинке: "; Txt (text args)];
                 EPrint [Txt "Группа (папка): "; Txt (group args)];
                 EPrint [Txt (str_repeat "=" 50)];
                 EPrint [Txt "Проверяем токен Яндекс.Диска..."];
                 ESend (check_token_request yandex);
                 EPrint [Txt "ОШИБКА: Неверный токен Яндекс.Диска"] ])).
  { unfold main. cbv [bind print emit].
    rewrite check_token_run. cbn [app]. count_sent. fold yandex.
    destruct (respond w (check_token_request yandex) 0) as [c body|]; [|reflexivity].
    destruct (Z.eqb_spec c 200) as [->|Hc]; [now elim (H body) | reflexivity]. }
  rewrite E. repeat split.
Qed.

Lemma bad_token_stops_the_run_witness :
  fst (main sample_args
            (scripted (Response 401 None) created (accepted sample_href)
                      (fun _ => status_only "success") ok_200) []) = Val tt
  /\ writes (snd (main sample_args
            (scripted (Response 401 None) created (accepted sample_href)
                      (fun _ => status_only "success") ok_200) [])) = [].
Proof.
  pose proof (bad_token_stops_the_run sample_args
            (scripted (Response 401 None) created (accepted sample_href)
                      (fun _ => status_only "success") ok_200)) as H.
  cbv zeta in H.
  assert (Hne : forall body : option json,
             respond (scripted (Response 401 None) created (accepted sample_href)
                      (fun _ => status_only "success") ok_200)
               (check_token_request (YDConnector_init (token sample_args))) 0
             <> Response 200 body) by (intros body; discriminate).
  destruct (H Hne) as (H1 & _ & _ & H4 & _). split; assumption.
Defined.

(** C6: on a 202 response whose [href] is [pre ++ "operation_id=" ++ id],
    where [id] holds no further marker, [upload_from_url] returns [id]; on
    any other status, on an exception of [requests.post] and on a body that
    makes the decoding raise, it returns [None]; it never raises. *)
Theorem upload_from_url_operation_id self file_url file_path w s :
  let out := respond w (upload_request self file_url file_path)
                     (sent (upload_request self file_url file_path) s) in
  (forall d pre id,
      out = Response 202 (Some (JDict d)) ->
      assoc "href" d = Some (JStr (pre ++ marker ++ id)) ->
      ~ occurs marker id ->
      fst (upload_from_url self file_url file_path w s) = Val (Some id))
  /\ (forall c body, out = Response c body -> c <> 202 ->
      fst (upload_from_url self file_url file_path w s) = Val None)
  /\ (out = Failure ->
      fst (upload_from_url self file_url file_path w s) = Val None)
  /\ (out = Response 202 None ->
      fst (upload_from_url self file_url file_path w s) = Val None)
  /\ (forall v, out = Response 202 (Some v) -> (forall d, v <> JDict d) ->
      fst (upload_from_url self file_url file_path w s) = Val None)
  /\ (forall d v, out = Response 202 (Some (JDict d)) ->
      assoc "href" d = Some v -> (forall h, v <> JStr h) ->
      fst (upload_from_url self file_url file_path w s) = Val None)
  /\ (exists o, fst (upload_from_url self file_url file_path w s) = Val o).
Proof.
  intros out. rewrite upload_from_url_run. fold out. cbn [fst].
  repeat split.
  - intros d pre id -> Hd Hid. cbn [Z.eqb Pos.eqb]. rewrite Hd.
    now rewrite split_marker_last.
  - intros c body -> Hc. apply Z.eqb_neq in Hc. now rewrite Hc.
  - now intros ->.
  - now intros ->.
  - intros v -> Hv. destruct v as [| | | | | |d]; try reflexivity. now elim (Hv d).
  - intros d v -> Hd Hv. cbn [Z.eqb Pos.eqb]. rewrite Hd.
    destruct v as [| | | |h| |]; try reflexivity. now elim (Hv h).
  - eexists. reflexivity.
Qed.

Lemma upload_from_url_operation_id_witness :
  fst (upload_from_url (YDConnector_init "secret")
         "https://cataas.com/cat/says/hi" "cats/hi.jpg"
         (scripted ok_200 created (accepted sample_href) (fun _ => Failure) Failure)
         []) = Val (Some "ABC123")
  /\ fst (upload_from_url (YDConnector_init "secret")
         "https://cataas.com/cat/says/hi" "cats/hi.jpg"
         (scripted ok_200 created (Response 507 None) (fun _ => Failure) Failure)
         []) = Val None.
Proof.
  split.
  - apply (proj1 (upload_from_url_operation_id _ _ _ _ _))
      with (d := [("href", JStr sample_href); ("method", JStr "GET")])
           (pre := "https://cloud-api.yandex.net/v1/disk/operations?").
    + reflexivity.
    + reflexivity.
    + apply occursb_false. reflexivity.
  - apply (proj1 (proj2 (upload_from_url_operation_id _ _ _ _ _)))
      with (c := 507) (body := None).
    + reflexivity.
    + discriminate.
Defined.

(** ** The loop and what follows only add to the log *)

(** Every turn of the loop begins by asking for the status. *)
Lemma poll_once_begins self op pbar w s :
  exists rest,
    snd (poll_once self op pbar w s) = s ++ ESend (status_request self op) :: rest.
Proof.
  unfold poll_once, bind at 1. rewrite check_upload_status_run.
  match goal with
  | |- context [(if ?b then ?m1 else ?m2) w ?s1] =>
      assert (E : extends (if b then m1 else m2))
  end.
  { apply extends_if; [auto 10 with log|].
    apply extends_bind; [auto with log | intros status].
    apply extends_if; [unfold tqdm_update; auto 10 with log|].
    apply extends_if; [unfold tqdm_set_description; auto 10 with log|].
    apply extends_bind; [auto with log | intros p].
    intros w' s'. rewrite bind_percent.
    destruct (shown_percent w' p) as [z|e].
    - assert (E : extends (pbar0 <- tqdm_update pbar (Z.max 0 (z - Tqdm.n pbar)) ;;
                           sleep 2 ;; ret (Next, pbar0)))
        by (unfold tqdm_update; auto 10 with log).
      apply E.
    - exists []. now rewrite app_nil_r. }
  destruct (E w (s ++ [ESend (status_request self op)])) as [rest ->].
  exists rest. now rewrite <- app_assoc.
Qed.

Lemma extends_poll_once self op pbar : extends (poll_once self op pbar).
Proof. intros w s. destruct (poll_once_begins self op pbar w s) as [r ->]. eauto. Qed.

Lemma extends_for_range self op k : forall pbar, extends (for_range k (poll_once self op) pbar).
Proof.
  induction k as [|k IH]; intros pbar; cbn [for_range]; [auto with log|].
  apply extends_bind; [apply extends_poll_once|].
  intros [[|] pbar']; auto with log.
Qed.

Lemma extends_closing {A} (m : M A) : extends m -> extends (closing m).
Proof.
  intros H w s. unfold closing. destruct (H w s) as [evs E].
  destruct (m w s) as [r s']. cbn [snd] in *. subst s'.
  eexists. now rewrite <- app_assoc.
Qed.

Lemma extends_save_result self args cat_url file_name file_path :
  extends (save_result self args cat_url file_name file_path).
Proof.
  intros w s.
  destruct (save_result_asks self args cat_url file_name file_path w s) as [rest ->].
  now eexists.
Qed.

(** A computation that begins with the events [pre] still does so when
    more is bound after it. *)
Lemma bind_begins {A B} (m : M A) (k : A -> M B) w s pre :
  (exists r, snd (m w s) = s ++ pre ++ r) ->
  (forall a, extends (k a)) ->
  exists r, snd (bind m k w s) = s ++ pre ++ r.
Proof.
  intros [r H] Hk. unfold bind.
  destruct (m w s) as [[a|e] s1]; cbn [snd] in *; subst s1.
  - destruct (Hk a w (s ++ pre ++ r)) as [r' ->].
    exists (r ++ r'). now rewrite <- !app_assoc.
  - now exists r.
Qed.

Lemma for_range_S k body pbar :
  for_range (S k) body pbar =
    (r <- body pbar ;;
     match r with
     | (Break, pbar') => ret pbar'
     | (Next, pbar') => for_range k body pbar'
     end).
Proof. reflexivity. Qed.

Lemma for_range_begins self op k pbar w s :
  exists rest,
    snd (for_range (S k) (poll_once self op) pbar w s)
    = s ++ [ESend (status_request self op)] ++ rest.
Proof.
  rewrite for_range_S. apply bind_begins.
  - apply poll_once_begins.
  - intros [[|] pbar']; [apply extends_for_range | apply extends_ret].
Qed.

(** The loop starts by drawing the bar and asking for the status. *)
Lemma track_progress_begins {A} self op (k : tqdm -> M A) w s :
  (forall pbar, extends (k pbar)) ->
  exists rest,
    snd ((pbar <- track_progress self op ;; k pbar) w s)
    = s ++ [EBar (bar 0); ESend (status_request self op)] ++ rest.
Proof.
  intros Hk. apply bind_begins; [|exact Hk].
  unfold track_progress, closing, bind at 1, tqdm_open.
  cbv [bind emit ret]. fold (bar 0).
  destruct (for_range_begins self op 19 (bar 0) w (s ++ [EBar (bar 0)])) as [r Hr].
  destruct (for_range 20 _ _ _ _) as [res s1]. cbn [snd] in *. subst s1.
  eexists. rewrite <- !app_assoc. cbn [app]. reflexivity.
Qed.

(** C10: on a 202 response whose [href] (the empty string when the field
    is missing) holds no marker, [upload_from_url] returns the whole [href];
    [main] gives up when that string is empty, and otherwise polls with the
    whole [href] as the operation id. *)
Theorem upload_without_marker_returns_href args w d href :
  let yandex := YDConnector_init (token args) in
  let file_path := (group args ++ "/" ++ text args ++ ".jpg")%string in
  let cat_url := (cat_template ++ quote (text args))%string in
  (exists b, respond w (check_token_request yandex) 0 = Response 200 b) ->
  (exists c b, respond w (create_folder_request yandex (group args)) 0 = Response c b
               /\ (c = 201 \/ c = 409)) ->
  respond w (upload_request yandex cat_url file_path) 0 = Response 202 (Some (JDict d)) ->
  member d "href" (JStr "") = JStr href ->
  ~ occurs marker href ->
  fst (upload_from_url yandex cat_url file_path w []) = Val (Some href)
  /\ (href = "" ->
      fst (main args w []) = Val tt
      /\ requests (snd (main args w []))
         = [check_token_request yandex; create_folder_request yandex (group args);
            upload_request yandex cat_url file_path]
      /\ List.last (snd (main args w [])) ENow
         = EPrint [Txt "ОШИБКА: Ошибка при запуске загрузки"])
  /\ (href <> "" ->
      exists rest,
        snd (main args w [])
        = startup_trace args
            ++ [EBar (bar 0); ESend (status_request yandex href)] ++ rest).
Proof.
  intros yandex file_path cat_url (b0 & H0) (c1 & b1 & H1 & Hc) H2 Hm Habs.
  assert (Hlast : List.last (split marker href) "" = href)
    by (unfold split; now rewrite split_from_absent).
  assert (Hup : forall s, sent (upload_request yandex cat_url file_path) s = 0%nat ->
                fst (upload_from_url yandex cat_url file_path w s) = Val (Some href)).
  { intros s Hs. rewrite upload_from_url_run, Hs, H2. cbn [fst Z.eqb Pos.eqb].
    unfold member in Hm. destruct (assoc "href" d) as [v|].
    - subst v. now rewrite Hlast.
    - now injection Hm as <-. }
  split; [now apply Hup | split].
  - intros ->.
    assert (E : main args w [] =
              (Val tt,
               removelast (startup_trace args)
                 ++ [EPrint [Txt "ОШИБКА: Ошибка при запуске загрузки"]])).
    { unfold main. cbv [bind print emit].
      rewrite check_token_run. cbn [app]. count_sent. fold yandex. rewrite H0.
      cbn [Z.eqb Pos.eqb negb].
      rewrite create_folder_run. cbn [app]. count_sent. fold yandex. rewrite H1.
      replace ((c1 =? 201) || (c1 =? 409)) with true
        by (destruct Hc; subst; reflexivity).
      cbn [negb app].
      rewrite get_cat_with_text_utf8. cbv [truthy_str].
      assert (Hurl : ((cat_template ++ quote (text args)) =? "")%string = false)
        by reflexivity.
      rewrite Hurl. cbn [negb app].
      rewrite upload_from_url_run. cbn [app]. count_sent.
      fold cat_url file_path. rewrite H2. cbn [Z.eqb Pos.eqb].
      unfold member in Hm. destruct (assoc "href" d) as [v|].
      - subst v. rewrite Hlast. reflexivity.
      - reflexivity. }
    rewrite E. repeat split.
  - intros Hne.
    assert (Hst : started args w href).
    { repeat split; eauto.
      exists d, href. repeat split; auto.
      unfold member in Hm. destruct (assoc "href" d) as [v|]; [now subst v|].
      injection Hm as <-. now elim Hne. }
    rewrite (main_started args w href Hst).
    apply track_progress_begins. intros _. apply extends_save_result.
Qed.

Lemma upload_without_marker_returns_href_witness :
  fst (upload_from_url (YDConnector_init "secret")
         "https://cataas.com/cat/says/hi" "cats/hi.jpg"
         (scripted ok_200 created
                   (accepted "https://cloud-api.yandex.net/v1/disk/operations/77")
                   (fun _ => Failure) Failure)
         [])
  = Val (Some "https://cloud-api.yandex.net/v1/disk/operations/77").
Proof.
  apply (upload_without_marker_returns_href sample_args
           (scripted ok_200 created
                   (accepted "https://cloud-api.yandex.net/v1/disk/operations/77")
                   (fun _ => Failure) Failure)
           [("href", JStr "https://cloud-api.yandex.net/v1/disk/operations/77");
            ("method", JStr "GET")]).
  - eexists. reflexivity.
  - exists 201, (Some (JDict [])). split; [reflexivity | now left].
  - reflexivity.
  - reflexivity.
  - apply occursb_false. reflexivity.
Defined.

(** ** The polling loop as a whole *)

Section Loop.
Variables (self : YDConnector) (op : string) (w : World).

Local Abbreviation req := (status_request self op).

Lemma tqdm_open_run s :
  tqdm_open 100 "Загрузка файла" "%" w s = (Val (bar 0), s ++ [EBar (bar 0)]).
Proof. reflexivity. Qed.

(** [k] polls without news, then a terminal turn that logs [final]. *)
Lemma track_progress_decided s k pbar_of final :
  sent req s = 0%nat ->
  (k < 20)%nat ->
  (forall j, (j < k)%nat -> no_news (respond w req j) = true) ->
  (forall pbar s', sent req s' = k ->
     poll_once self op pbar w s' = (Val (Break, pbar_of pbar), s' ++ final pbar)) ->
  exists evs pbar,
    track_progress self op w s
    = (Val (pbar_of pbar),
       s ++ EBar (bar 0) :: evs ++ final pbar ++ [EBarClose])
    /\ sent req evs = k
    /\ Forall (poll_event req) evs.
Proof.
  intros Hs Hk Hquiet Hlast.
  destruct (for_range_no_news self op w k (S (19 - k)) (bar 0) (s ++ [EBar (bar 0)]))
    as (pbar & evs & Hloop & Hn & Hev).
  { intros j Hj. rewrite sent_app, Hs. cbn. now apply Hquiet. }
  replace (k + S (19 - k))%nat with 20%nat in Hloop by lia.
  exists evs, pbar. split; [|now split].
  unfold track_progress, closing, bind at 1. rewrite tqdm_open_run.
  rewrite Hloop, for_range_S. unfold bind at 1.
  rewrite Hlast.
  - cbn [ret]. rewrite <- !app_assoc. reflexivity.
  - rewrite !sent_app, Hs, Hn. reflexivity.
Qed.

(** Twenty polls without news: the loop runs out. *)
Lemma track_progress_exhausted s :
  sent req s = 0%nat ->
  (forall j, (j < 20)%nat -> no_news (respond w req j) = true) ->
  exists evs pbar,
    track_progress self op w s = (Val pbar, s ++ EBar (bar 0) :: evs ++ [EBarClose])
    /\ sent req evs = 20%nat
    /\ Forall (poll_event req) evs.
Proof.
  intros Hs Hquiet.
  destruct (for_range_no_news self op w 20 0 (bar 0) (s ++ [EBar (bar 0)]))
    as (pbar & evs & Hloop & Hn & Hev).
  { intros j Hj. rewrite sent_app, Hs. cbn. now apply Hquiet. }
  exists evs, pbar. split; [|now split].
  unfold track_progress, closing, bind at 1. rewrite tqdm_open_run.
  change (20 + 0)%nat with 20%nat in Hloop.
  rewrite Hloop. cbn [for_range ret].
  rewrite <- !app_assoc. reflexivity.
Qed.
End Loop.

Lemma sent_status_startup args op :
  sent (status_request (YDConnector_init (token args)) op) (startup_trace args) = 0%nat.
Proof. reflexivity. Qed.

Lemma member_status_failed d :
  assoc "status" d = Some (JStr "failed") ->
  d <> [] /\ py_eq_str (member d "status" JNull) "failed" = true.
Proof.
  intros H. split; [intros ->; discriminate|]. unfold member. now rewrite H.
Qed.

Lemma member_status_success d :
  assoc "status" d = Some (JStr "success") ->
  d <> [] /\ py_eq_str (member d "status" JNull) "success" = true.
Proof.
  intros H. split; [intros ->; discriminate|]. unfold member. now rewrite H.
Qed.

(** C2: when a poll (after any number of polls without news) brings a
    payload whose status is "failed", the loop prints the diagnostic and
    ends, and [main] goes on to ask for the file info. *)
Theorem failed_status_still_fetches_file_info args w op k d :
  let yandex := YDConnector_init (token args) in
  let file_path := (group args ++ "/" ++ text args ++ ".jpg")%string in
  started args w op ->
  (k < 20)%nat ->
  (forall j, (j < k)%nat -> no_news (respond w (status_request yandex op) j) = true) ->
  respond w (status_request yandex op) k = Response 200 (Some (JDict d)) ->
  assoc "status" d = Some (JStr "failed") ->
  exists evs pbar rest,
    snd (main args w [])
    = startup_trace args
        ++ EBar (bar 0) :: evs
        ++ [ESend (status_request yandex op);
            EBar pbar;
            EPrint [Txt "ОШИБКА: Ошибка при загрузке: "; Obj (JDict d)];
            EBarClose;
            ESend (file_info_request yandex file_path)]
        ++ rest
    /\ Tqdm.desc pbar = "Ошибка загрузки"
    /\ sent (status_request yandex op) evs = k
    /\ Forall (poll_event (status_request yandex op)) evs.
Proof.
  intros yandex file_path Hst Hk Hquiet Hk_failed Hd.
  destruct (member_status_failed d Hd) as [Hne Hf].
  destruct (track_progress_decided yandex op w (startup_trace args) k
              (fun pbar => Tqdm.mk (Tqdm.total pbar) "Ошибка загрузки"
                                   (Tqdm.unit pbar) (Tqdm.n pbar))
              (fun pbar =>
                 [ESend (status_request yandex op);
                  EBar (Tqdm.mk (Tqdm.total pbar) "Ошибка загрузки"
                                (Tqdm.unit pbar) (Tqdm.n pbar));
                  EPrint [Txt "ОШИБКА: Ошибка при загрузке: "; Obj (JDict d)]]))
    as (evs & pbar & Hrun & Hn & Hev); auto using sent_status_startup.
  { intros pbar s' Hs'. apply poll_once_failed; auto.
    rewrite Hs', Hk_failed. reflexivity. }
  rewrite (main_started args w op Hst). unfold bind at 1.
  fold yandex. rewrite Hrun.
  match goal with
  | |- context [save_result ?y ?a ?u ?f ?p w ?s] =>
      destruct (save_result_asks y a u f p w s) as [rest ->]
  end.
  exists evs, (Tqdm.mk (Tqdm.total pbar) "Ошибка загрузки"
                       (Tqdm.unit pbar) (Tqdm.n pbar)), rest.
  split; [|split; [|split]]; [|reflexivity|exact Hn|exact Hev].
  rewrite <- !app_assoc. cbn [app]. rewrite <- !app_assoc. reflexivity.
Qed.

(** C4, as amended: when each of the twenty polls brings none, or a
    payload that counts as false, or a non-terminal payload whose progress
    is absent or a number with a finite hundredfold, the loop ends without
    an exception and without a message, and [main] goes on to ask for the
    file info. *)
Theorem poll_budget_runs_out_silently args w op :
  let yandex := YDConnector_init (token args) in
  let file_path := (group args ++ "/" ++ text args ++ ".jpg")%string in
  started args w op ->
  (forall j, (j < 20)%nat -> no_news (respond w (status_request yandex op) j) = true) ->
  exists evs pbar rest,
    track_progress yandex op w (startup_trace args)
    = (Val pbar, startup_trace args ++ EBar (bar 0) :: evs ++ [EBarClose])
    /\ sent (status_request yandex op) evs = 20%nat
    /\ Forall (poll_event (status_request yandex op)) evs
    /\ snd (main args w [])
       = startup_trace args
           ++ EBar (bar 0) :: evs
           ++ [EBarClose; ESend (file_info_request yandex file_path)]
           ++ rest.
Proof.
  intros yandex file_path Hst Hquiet.
  destruct (track_progress_exhausted yandex op w (startup_trace args))
    as (evs & pbar & Hrun & Hn & Hev); auto using sent_status_startup.
  rewrite (main_started args w op Hst). unfold bind at 1.
  fold yandex. rewrite Hrun.
  match goal with
  | |- context [save_result ?y ?a ?u ?f ?p w ?s] =>
      destruct (save_result_asks y a u f p w s) as [rest ->]
  end.
  exists evs, pbar, rest. split; [reflexivity | split; [exact Hn | split; [exact Hev|]]].
  rewrite <- !app_assoc. cbn [app]. rewrite <- !app_assoc. reflexivity.
Qed.

Lemma sample_started polls info :
  started sample_args (scripted ok_200 created (accepted sample_href) polls info)
          "ABC123".
Proof.
  repeat split.
  - eexists. reflexivity.
  - exists 201, (Some (JDict [])). split; [reflexivity | now left].
  - eexists _, sample_href. repeat split.
  - discriminate.
Qed.

Lemma failed_status_still_fetches_file_info_witness :
  exists evs pbar rest,
    snd (main sample_args
           (scripted ok_200 created (accepted sample_href)
              (fun k => match k with
                        | 0%nat => in_progress float_0_3
                        | 1%nat => Failure
                        | _ => status_only "failed"
                        end)
              ok_200) [])
    = startup_trace sample_args
        ++ EBar (bar 0) :: evs
        ++ [ESend (status_request (YDConnector_init "secret") "ABC123");
            EBar pbar;
            EPrint [Txt "ОШИБКА: Ошибка при загрузке: ";
                    Obj (JDict [("status", JStr "failed")])];
            EBarClose;
            ESend (file_info_request (YDConnector_init "secret") "cats/hi.jpg")]
        ++ rest
    /\ Tqdm.desc pbar = "Ошибка загрузки"
    /\ sent (status_request (YDConnector_init "secret") "ABC123") evs = 2%nat
    /\ Forall (poll_event (status_request (YDConnector_init "secret") "ABC123")) evs.
Proof.
  apply (failed_status_still_fetches_file_info sample_args _ "ABC123" 2
           [("status", JStr "failed")]).
  - apply sample_started.
  - lia.
  - intros [|[|j]] Hj; [reflexivity | reflexivity | lia].
  - reflexivity.
  - reflexivity.
Defined.

Lemma poll_budget_runs_out_silently_witness :
  exists evs pbar rest,
    track_progress (YDConnector_init "secret") "ABC123"
      (scripted ok_200 created (accepted sample_href)
                (fun _ => in_progress float_0_3) ok_200)
      (startup_trace sample_args)
    = (Val pbar, startup_trace sample_args ++ EBar (bar 0) :: evs ++ [EBarClose])
    /\ sent (status_request (YDConnector_init "secret") "ABC123") evs = 20%nat
    /\ Forall (poll_event (status_request (YDConnector_init "secret") "ABC123")) evs
    /\ snd (main sample_args
              (scripted ok_200 created (accepted sample_href)
                        (fun _ => in_progress float_0_3) ok_200) [])
       = startup_trace sample_args
           ++ EBar (bar 0) :: evs
           ++ [EBarClose;
               ESend (file_info_request (YDConnector_init "secret") "cats/hi.jpg")]
           ++ rest.
Proof.
  apply (poll_budget_runs_out_silently sample_args _ "ABC123").
  - apply sample_started.
  - intros j Hj. reflexivity.
Defined.

(** C4, as the specification words it, fails: a non-terminal payload whose
    progress is null makes [None * 100] raise a [TypeError] at the first
    poll, which nothing in [main] handles. *)
Lemma budget_as_specified_fails : ~ budget_as_specified.
Proof.
  intros H.
  destruct (H sample_args
              (scripted ok_200 created (accepted sample_href)
                        (fun _ => null_progress) ok_200)
              "ABC123")
    as [(pbar & s1 & E) _].
  - apply sample_started.
  - intros j _. reflexivity.
  - vm_compute in E. discriminate E.
Qed.

Lemma shown_0_3 w : shown_percent w (JFloat float_0_3) = Val 30.
Proof. reflexivity. Qed.

Lemma shown_0_6 w : shown_percent w (JFloat float_0_6) = Val 60.
Proof. reflexivity. Qed.

(** [float_0_3] and [float_0_6] are within half a unit in the last place
    of 3/10 and 6/10. *)
Lemma float_0_3_nearest :
  2 * Z.abs (10 * 5404319552844595 - 3 * 2 ^ 54) <= 10
  /\ 2 * Z.abs (10 * 5404319552844595 - 6 * 2 ^ 53) <= 10
  /\ valid_binary prec emax float_0_3 = true
  /\ valid_binary prec emax float_0_6 = true.
Proof. repeat split; vm_compute; congruence. Qed.

(** C5: with the payloads running(0.3), running(0.6), success the bar
    shows 30, 60 and then 100 at the third poll, where the loop ends: three
    of the twenty turns are used. *)
Theorem progress_reaches_100_at_third_poll args w op d1 d2 d3 :
  let yandex := YDConnector_init (token args) in
  let file_path := (group args ++ "/" ++ text args ++ ".jpg")%string in
  let poll := ESend (status_request yandex op) in
  started args w op ->
  respond w (status_request yandex op) 0 = Response 200 (Some (JDict d1)) ->
  terminal (member d1 "status" JNull) = false ->
  assoc "progress" d1 = Some (JFloat float_0_3) ->
  respond w (status_request yandex op) 1 = Response 200 (Some (JDict d2)) ->
  terminal (member d2 "status" JNull) = false ->
  assoc "progress" d2 = Some (JFloat float_0_6) ->
  respond w (status_request yandex op) 2 = Response 200 (Some (JDict d3)) ->
  assoc "status" d3 = Some (JStr "success") ->
  track_progress yandex op w (startup_trace args)
  = (Val (bar 100),
     startup_trace args
       ++ [EBar (bar 0);
           poll; EBar (bar 30); ESleep 2;
           poll; EBar (bar 60); ESleep 2;
           poll; EBar (bar 100);
           EBarClose])
  /\ exists rest,
      snd (main args w [])
      = startup_trace args
          ++ [EBar (bar 0);
              poll; EBar (bar 30); ESleep 2;
              poll; EBar (bar 60); ESleep 2;
              poll; EBar (bar 100);
              EBarClose;
              ESend (file_info_request yandex file_path)]
          ++ rest.
Proof.
  intros yandex file_path poll Hst H1 Ht1 Hp1 H2 Ht2 Hp2 H3 Hs3.
  destruct (member_status_success d3 Hs3) as [Hne3 Hok3].
  pose proof (sent_status_startup args op) as Hs0. fold yandex in Hs0.
  assert (Hrun :
    track_progress yandex op w (startup_trace args)
    = (Val (bar 100),
       startup_trace args
         ++ [EBar (bar 0);
             poll; EBar (bar 30); ESleep 2;
             poll; EBar (bar 60); ESleep 2;
             poll; EBar (bar 100);
             EBarClose])).
  { unfold track_progress, closing, bind at 1. rewrite tqdm_open_run.
    rewrite for_range_S. unfold bind at 1.
    rewrite (poll_once_running yandex op w _ _ d1 30);
      [ | rewrite !sent_app, Hs0; cbn [sent Nat.add]; rewrite H1; reflexivity
        | intros ->; discriminate
        | exact Ht1
        | unfold member; rewrite Hp1; apply shown_0_3 ].
    rewrite for_range_S. unfold bind at 1.
    rewrite (poll_once_running yandex op w _ _ d2 60);
      [ | rewrite !sent_app, Hs0; cbn [sent Nat.add];
          rewrite request_eqb_refl; cbn [Nat.add]; rewrite H2; reflexivity
        | intros ->; discriminate
        | exact Ht2
        | unfold member; rewrite Hp2; apply shown_0_6 ].
    rewrite for_range_S. unfold bind at 1.
    rewrite (poll_once_success yandex op w _ _ d3);
      [ | rewrite !sent_app, Hs0; cbn [sent Nat.add];
          rewrite !request_eqb_refl; cbn [Nat.add]; rewrite H3; reflexivity
        | exact Hne3
        | exact Hok3 ].
    cbn [ret]. rewrite <- !app_assoc. reflexivity. }
  split; [exact Hrun|].
  rewrite (main_started args w op Hst). unfold bind at 1.
  fold yandex. rewrite Hrun.
  match goal with
  | |- context [save_result ?y ?a ?u ?f ?p w ?s] =>
      destruct (save_result_asks y a u f p w s) as [rest ->]
  end.
  exists rest. rewrite <- !app_assoc. reflexivity.
Qed.

Lemma progress_reaches_100_at_third_poll_witness :
  track_progress (YDConnector_init "secret") "ABC123"
    (scripted ok_200 created (accepted sample_href)
       (fun k => match k with
                 | 0%nat => in_progress float_0_3
                 | 1%nat => in_progress float_0_6
                 | _ => status_only "success"
                 end)
       ok_200)
    (startup_trace sample_args)
  = (Val (bar 100),
     startup_trace sample_args
       ++ [EBar (bar 0);
           ESend (status_request (YDConnector_init "secret") "ABC123");
           EBar (bar 30); ESleep 2;
           ESend (status_request (YDConnector_init "secret") "ABC123");
           EBar (bar 60); ESleep 2;
           ESend (status_request (YDConnector_init "secret") "ABC123");
           EBar (bar 100);
           EBarClose]).
Proof.
  apply (progress_reaches_100_at_third_poll sample_args
           (scripted ok_200 created (accepted sample_href)
              (fun k => match k with
                        | 0%nat => in_progress float_0_3
                        | 1%nat => in_progress float_0_6
                        | _ => status_only "success"
                        end)
              ok_200)
           "ABC123"
           [("status", JStr "in-progress"); ("progress", JFloat float_0_3)]
           [("status", JStr "in-progress"); ("progress", JFloat float_0_6)]
           [("status", JStr "success")]);
    try reflexivity.
  apply sample_started.
Defined.

(** ** The manifest *)

Lemma track_progress_success_at_once self op w s d :
  sent (status_request self op) s = 0%nat ->
  respond w (status_request self op) 0 = Response 200 (Some (JDict d)) ->
  assoc "status" d = Some (JStr "success") ->
  track_progress self op w s
  = (Val (bar 100),
     s ++ [EBar (bar 0); ESend (status_request self op); EBar (bar 100); EBarClose]).
Proof.
  intros Hs H0 Hd. destruct (member_status_success d Hd) as [Hne Hok].
  unfold track_progress, closing, bind at 1. rewrite tqdm_open_run.
  rewrite for_range_S. unfold bind at 1.
  rewrite (poll_once_success self op w _ _ d);
    [ | rewrite sent_app, Hs; cbn [sent Nat.add]; rewrite H0; reflexivity
      | exact Hne | exact Hok ].
  cbn [ret]. rewrite <- !app_assoc. reflexivity.
Qed.

Lemma clock_reads_app s s' : clock_reads (s ++ s') = (clock_reads s + clock_reads s')%nat.
Proof.
  induction s as [|e s IH]; simpl; [reflexivity|].
  destruct e; rewrite IH; reflexivity.
Qed.

Lemma writes_app s s' : writes (s ++ s') = writes s ++ writes s'.
Proof.
  induction s as [|e s IH]; simpl; [reflexivity|].
  destruct e; rewrite IH; reflexivity.
Qed.

(** The good end of [save_result]: the file info is a non-empty dict and
    the manifest can be written. *)
Lemma save_result_writes self args cat_url file_name file_path w s info :
  respond w (file_info_request self file_path)
          (sent (file_info_request self file_path) s) = Response 200 (Some (JDict info)) ->
  info <> [] ->
  (forall name, writable w name = true) ->
  let t1 := clock w (clock_reads s) in
  let t2 := clock w (S (clock_reads s)) in
  let yandex_disk_url := ("https://disk.yandex.ru/client/disk/" ++ group args)%string in
  let json_filename := ("backup_info_" ++ strftime_stamp t2 ++ ".json")%string in
  let backup_info :=
    JDict [("timestamp", JStr (isoformat t1));
           ("group_name", JStr (group args));
           ("text", JStr (text args));
           ("file_name", JStr file_name);
           ("file_size", member info "size" (JInt 0));
           ("file_path", member info "path" (JStr ""));
           ("yandex_disk_url", JStr yandex_disk_url);
           ("source_url", JStr cat_url)] in
  fst (save_result self args cat_url file_name file_path w s) = Val tt
  /\ writes (snd (save_result self args cat_url file_name file_path w s))
     = writes s ++ [(json_filename, backup_info)].
Proof.
  intros Hinfo Hne Hw t1 t2 yandex_disk_url json_filename backup_info.
  assert (E : exists prints,
             save_result self args cat_url file_name file_path w s
             = (Val tt,
                s ++ [ESend (file_info_request self file_path); ENow; ENow;
                      EWrite json_filename backup_info] ++ prints)
             /\ writes prints = []).
  { unfold save_result, bind at 1. rewrite get_file_info_run, Hinfo.
    cbn [payload_of Z.eqb Pos.eqb].
    replace (truthy (JDict info)) with true
      by (destruct info; [contradiction | reflexivity]).
    unfold bind at 1, datetime_now. unfold bind at 1. cbn [dict_get ret].
    unfold bind at 1. cbn [dict_get ret].
    unfold bind at 1, datetime_now. unfold bind at 1, write_json.
    rewrite Hw. cbv [bind print emit].
    rewrite !clock_reads_app. cbn [clock_reads]. rewrite !Nat.add_0_r.
    replace (clock_reads s + 1)%nat with (S (clock_reads s)) by lia.
    fold (member info "size" (JInt 0)) (member info "path" (JStr "")).
    eexists. split.
    - rewrite <- !app_assoc. cbn [app]. reflexivity.
    - reflexivity. }
  destruct E as (prints & -> & Hp). cbn [fst snd]. split; [reflexivity|].
  rewrite !writes_app. cbn [writes]. now rewrite Hp.
Qed.

(** C3, as amended: in the end-to-end scenario for text "hi" and group
    "cats" one manifest is written; its [file_name] is "hi.jpg", its
    [file_size] is 1234, and its [file_path] is the [path] that the file
    info reports (the empty string when it reports none). *)
Theorem manifest_records_reported_path token w info :
  all_succeed (mkArgs "hi" token "cats") w info ->
  fst (main (mkArgs "hi" token "cats") w []) = Val tt
  /\ exists name m,
      writes (snd (main (mkArgs "hi" token "cats") w [])) = [(name, JDict m)]
      /\ assoc "file_name" m = Some (JStr "hi.jpg")
      /\ assoc "file_path" m = Some (member info "path" (JStr ""))
      /\ assoc "file_size" m = Some (JInt 1234).
Proof.
  intros (op & Hst & (d & Hpoll & Hd) & Hinfo & Hsize & Hw).
  assert (E : main (mkArgs "hi" token "cats") w [] =
              save_result (YDConnector_init token) (mkArgs "hi" token "cats")
                (cat_template ++ quote "hi") "hi.jpg" "cats/hi.jpg" w
                (startup_trace (mkArgs "hi" token "cats")
                   ++ [EBar (bar 0);
                       ESend (status_request (YDConnector_init token) op);
                       EBar (bar 100); EBarClose])).
  { rewrite (main_started _ w op Hst). unfold bind at 1.
    rewrite (track_progress_success_at_once _ op w _ d);
      [ | apply sent_status_startup | exact Hpoll | exact Hd ].
    reflexivity. }
  rewrite E.
  match goal with
  | |- context [save_result ?y ?a ?u ?f ?p w ?s] =>
      destruct (save_result_writes y a u f p w s info) as [Hfst Hwr];
      [ | intros ->; discriminate | exact Hw | ]
  end.
  { exact Hinfo. }
  rewrite Hfst, Hwr. split; [reflexivity|].
  eexists _, _. split; [reflexivity|].
  assert (Hs : member info "size" (JInt 0) = JInt 1234)
    by (unfold member; now rewrite Hsize).
  rewrite Hs. repeat split.
Qed.

Lemma bare_info_all_succeed :
  all_succeed sample_args bare_info_world [("size", JInt 1234)].
Proof.
  exists "ABC123". split; [apply sample_started|].
  split; [eexists; split; reflexivity|].
  repeat split.
Qed.

Lemma manifest_records_reported_path_witness :
  exists name m,
    writes (snd (main sample_args bare_info_world [])) = [(name, JDict m)]
    /\ assoc "file_name" m = Some (JStr "hi.jpg")
    /\ assoc "file_path" m = Some (JStr "")
    /\ assoc "file_size" m = Some (JInt 1234).
Proof.
  apply (manifest_records_reported_path "secret" bare_info_world
           [("size", JInt 1234)] bare_info_all_succeed).
Defined.

(** C3, as the specification words it, fails: when the file info holds the
    size only, the manifest's [file_path] is the empty string. *)
Lemma manifest_as_specified_fails : ~ manifest_as_specified.
Proof.
  intros H.
  destruct (H "secret" bare_info_world [("size", JInt 1234)] bare_info_all_succeed)
    as (name & m & Hw & _ & Hp & _).
  vm_compute in Hw. injection Hw as _ <-. discriminate Hp.
Qed.

(** ** The address of the picture *)

Lemma str_mem_append c a b :
  str_mem c (a ++ b)%string = str_mem c a || str_mem c b.
Proof.
  induction a as [|x a IH]; cbn [append str_mem]; [reflexivity|].
  now rewrite IH, orb_assoc.
Qed.

Lemma quote_from_bytes_append a b safe :
  quote_from_bytes (a ++ b) safe
  = (quote_from_bytes a safe ++ quote_from_bytes b safe)%string.
Proof.
  induction a as [|x a IH]; cbn [append quote_from_bytes]; [reflexivity|].
  now rewrite IH, append_assoc.
Qed.

Lemma hex_digit_safe k : always_safe (hex_digit k) = true.
Proof. do 16 (destruct k as [|k]; [reflexivity|]). reflexivity. Qed.

Lemma percent_chars c x :
  str_mem x (percent c) = true -> always_safe x = true \/ x = "%"%char.
Proof.
  unfold percent. cbn [str_mem]. rewrite orb_false_r.
  intros H. apply orb_true_iff in H as [H|H].
  - right. now apply Ascii.eqb_eq in H.
  - left. apply orb_true_iff in H as [H|H]; apply Ascii.eqb_eq in H; subst x;
      apply hex_digit_safe.
Qed.

(** What [quote] lets through: the always-safe characters, the slash, and
    the percent sign of its own escapes. *)
Lemma quote_chars text x :
  str_mem x (quote text) = true ->
  always_safe x = true \/ x = "/"%char \/ x = "%"%char.
Proof.
  unfold quote. induction text as [|c text IH]; cbn [quote_from_bytes str_mem];
    [discriminate|].
  rewrite str_mem_append. intros H. apply orb_true_iff in H as [H|H]; [|auto].
  rewrite ?orb_false_r in H.
  destruct (always_safe c || (c =? "/")%char) eqn:E.
  - cbn [str_mem] in H. rewrite orb_false_r in H. apply Ascii.eqb_eq in H. subst x.
    apply orb_true_iff in E as [E|E]; [now left|].
    apply Ascii.eqb_eq in E. auto.
  - destruct (percent_chars c x H); auto.
Qed.

Lemma reserved_not_safe c :
  reserved c = true -> always_safe c = false /\ c <> "%"%char.
Proof.
  unfold reserved. cbn [str_mem]. intros H.
  repeat (apply orb_true_iff in H as [H|H]);
    try discriminate;
    apply Ascii.eqb_eq in H; subst c; split; (reflexivity || discriminate).
Qed.

Lemma utf8_none_iff (text : pystr) :
  utf8 text = None <-> exists k, In (Lone k) text.
Proof.
  induction text as [|[b|k] text IH]; cbn [utf8 In].
  - split; [discriminate | intros [k []]].
  - destruct (utf8 text) as [tail|].
    + split; [discriminate|]. intros [k [Hk|Hk]]; [discriminate|].
      assert (H : Some tail = None) by (apply IH; now exists k).
      discriminate H.
    + split; [|reflexivity]. intros _.
      destruct (proj1 IH eq_refl) as [k Hk]. exists k. now right.
  - split; [|reflexivity]. intros _. exists k. now left.
Qed.

Lemma get_cat_with_text_run (text : pystr) w s :
  get_cat_with_text text w s
  = (Val match utf8 text with
         | Some b => Some (cat_template ++ quote b)%string
         | None => None
         end, s).
Proof.
  unfold get_cat_with_text, py_quote, encode_utf8, try_except, bind, ret, raise.
  now destruct (utf8 text).
Qed.

(** C7, as amended: for a text that has a UTF-8 encoding the address is the
    template followed by [quote] of the encoding: every byte other than a
    letter, a digit, one of [_.-~] and the slash is replaced by its [%XX]
    escape, and the slash is kept; so no reserved character other than the
    slash is left in the encoded part.  For a text that has none, that is a
    text with a lone surrogate, the result is [None]. *)
Theorem cat_url_keeps_only_slash (text : pystr) w s :
  (forall b,
      utf8 text = Some b ->
      get_cat_with_text text w s = (Val (Some (cat_template ++ quote b)%string), s)
      /\ (forall a c r,
            b = (a ++ String c r)%string ->
            quote b
            = (quote a
                 ++ (if always_safe c || Ascii.eqb c "/" then String c "" else percent c)
                 ++ quote r)%string)
      /\ (forall x, str_mem x (quote b) = true ->
                    always_safe x = true \/ x = "/"%char \/ x = "%"%char)
      /\ (forall x, reserved x = true -> x <> "/"%char -> str_mem x (quote b) = false))
  /\ (utf8 text = None -> get_cat_with_text text w s = (Val None, s))
  /\ (utf8 text = None <-> exists k, In (Lone k) text).
Proof.
  rewrite get_cat_with_text_run. split; [|split].
  - intros b ->. split; [reflexivity | split; [|split]].
    + intros a c r ->. unfold quote. rewrite quote_from_bytes_append.
      cbn [quote_from_bytes str_mem]. now rewrite orb_false_r.
    + apply quote_chars.
    + intros x Hr Hx. destruct (str_mem x (quote b)) eqn:E; [|reflexivity].
      destruct (reserved_not_safe x Hr) as [Hs Hp].
      destruct (quote_chars b x E) as [H|[H|H]]; congruence.
  - now intros ->.
  - apply utf8_none_iff.
Qed.

Lemma cat_url_keeps_only_slash_witness :
  fst (get_cat_with_text (of_utf8 "a b&c") bare_info_world [])
  = Val (Some "https://cataas.com/cat/says/a%20b%26c")
  /\ str_mem "&" (quote "a b&c") = false
  /\ fst (get_cat_with_text [Chars "a"; Lone 56575] bare_info_world []) = Val None.
Proof.
  split; [|split].
  - exact (f_equal fst
             (proj1 (proj1 (cat_url_keeps_only_slash (of_utf8 "a b&c") bare_info_world [])
                           "a b&c" eq_refl))).
  - apply (proj2 (proj2 (proj2
             (proj1 (cat_url_keeps_only_slash (of_utf8 "a b&c") bare_info_world [])
                    "a b&c" eq_refl)))).
    + reflexivity.
    + discriminate.
  - exact (f_equal fst
             (proj1 (proj2 (cat_url_keeps_only_slash [Chars "a"; Lone 56575]
                                                     bare_info_world []))
                    eq_refl)).
Defined.

(** C7, as the specification words it, fails: the slash is a reserved
    character and [quote] leaves it as it is. *)
Lemma quote_as_specified_fails : ~ quote_as_specified.
Proof.
  intros H.
  destruct (H (of_utf8 "a/b") bare_info_world []) as (encoded & E & Hc).
  assert (encoded = "a/b") by (cbv in E; congruence). subst encoded.
  specialize (Hc "/"%char "a/b" eq_refl eq_refl eq_refl). discriminate Hc.
Qed.

(** * Further properties *)

(** ** Bounds and shapes of what is logged, in every world *)

Lemma total_app c s s' : total c (s ++ s') = (total c s + total c s')%nat.
Proof. induction s as [|e s IH]; simpl; [reflexivity | rewrite IH; lia]. Qed.

Section Emits.
Variables (P : event -> Prop) (c : event -> nat).

Lemma emits_ret {A} (a : A) : emits P c 0 (ret a).
Proof. intros w s. exists []. rewrite app_nil_r. repeat split; auto. Qed.

Lemma emits_raise {A} e : emits P c 0 (@raise A e).
Proof. intros w s. exists []. rewrite app_nil_r. repeat split; auto. Qed.

Lemma emits_emit e : P e -> emits P c (c e) (emit e).
Proof.
  intros H w s. exists [e]. repeat split; auto. cbn. lia.
Qed.

Lemma emits_bind {A B} (m : M A) (k : A -> M B) n1 n2 :
  emits P c n1 m -> (forall a, emits P c n2 (k a)) -> emits P c (n1 + n2) (bind m k).
Proof.
  intros Hm Hk w s. unfold bind.
  destruct (Hm w s) as (e1 & H1 & F1 & B1).
  destruct (m w s) as [[a|e] s1]; cbn [snd] in *; subst s1.
  - destruct (Hk a w (s ++ e1)) as (e2 & H2 & F2 & B2). rewrite H2.
    exists (e1 ++ e2). rewrite app_assoc, total_app. repeat split; auto.
    + now apply Forall_app.
    + lia.
  - exists e1. repeat split; auto. lia.
Qed.

Lemma emits_try_except {A} (m h : M A) n1 n2 :
  emits P c n1 m -> emits P c n2 h -> emits P c (n1 + n2) (try_except m h).
Proof.
  intros Hm Hh w s. unfold try_except.
  destruct (Hm w s) as (e1 & H1 & F1 & B1).
  destruct (m w s) as [[a|e] s1]; cbn [snd] in *; subst s1.
  - exists e1. repeat split; auto. lia.
  - destruct (Hh w (s ++ e1)) as (e2 & H2 & F2 & B2). rewrite H2.
    exists (e1 ++ e2). rewrite app_assoc, total_app. repeat split; auto.
    + now apply Forall_app.
    + lia.
Qed.

Lemma emits_weaken {A} (m : M A) n n' :
  emits P c n m -> (n <= n')%nat -> emits P c n' m.
Proof.
  intros H L w s. destruct (H w s) as (e & H1 & F & B).
  exists e. repeat split; auto. lia.
Qed.

Lemma emits_if {A} (b : bool) (m1 m2 : M A) n1 n2 :
  emits P c n1 m1 -> emits P c n2 m2 ->
  emits P c (Nat.max n1 n2) (if b then m1 else m2).
Proof.
  intros H1 H2. destruct b; eapply emits_weaken; eauto; lia.
Qed.

Lemma emits_send r : P (ESend r) -> emits P c (c (ESend r)) (send r).
Proof.
  intros H w s. unfold send. exists [ESend r].
  destruct (respond w r (sent r s)); cbn [snd]; repeat split; auto; cbn; lia.
Qed.

Lemma emits_datetime_now : P ENow -> emits P c (c ENow) datetime_now.
Proof. intros H w s. exists [ENow]. repeat split; auto. cbn. lia. Qed.

Lemma emits_write_json name v :
  P (EWrite name v) -> emits P c (c (EWrite name v)) (write_json name v).
Proof.
  intros H w s. unfold write_json. destruct (writable w name); cbn [snd].
  - exists [EWrite name v]. repeat split; auto. cbn. lia.
  - exists []. rewrite app_nil_r. repeat split; auto. cbn. lia.
Qed.

Lemma emits_closing {A} (m : M A) n :
  P EBarClose -> emits P c n m -> emits P c (n + c EBarClose) (closing m).
Proof.
  intros HP H w s. unfold closing. destruct (H w s) as (e & H1 & F & B).
  destruct (m w s) as [r s1]. cbn [snd] in *. subst s1.
  exists (e ++ [EBarClose]). rewrite app_assoc, total_app. repeat split; auto.
  - apply Forall_app. split; auto.
  - cbn. lia.
Qed.

(** The builtins log nothing. *)
Lemma emits_silent {A} (m : M A) :
  (forall w s, snd (m w s) = s) -> emits P c 0 m.
Proof.
  intros H w s. exists []. rewrite app_nil_r, H. repeat split; auto.
Qed.

Lemma emits_dict_get v key default : emits P c 0 (dict_get v key default).
Proof. apply emits_silent. now destruct v. Qed.

Lemma emits_response_json b : emits P c 0 (response_json b).
Proof. apply emits_silent. now destruct b. Qed.

Lemma emits_str_split v sep : emits P c 0 (str_split v sep).
Proof. apply emits_silent. now destruct v. Qed.

Lemma emits_last_item parts : emits P c 0 (last_item parts).
Proof. apply emits_silent. now destruct parts. Qed.

Lemma emits_mul_100 v : emits P c 0 (mul_100 v).
Proof. apply emits_silent. now destruct v. Qed.

Lemma emits_py_int v : emits P c 0 (py_int v).
Proof.
  apply emits_silent. destruct v as [| | |f|t| |]; try reflexivity.
  - now destruct f.
  - intros w s. cbn. now destruct (int_of_str w t).
Qed.

Lemma emits_py_quote text : emits P c 0 (py_quote text).
Proof.
  apply emits_silent. intros w s.
  unfold py_quote, encode_utf8, bind, ret, raise. now destruct (utf8 text).
Qed.
End Emits.

Lemma emits_for_range P c k body n :
  (forall pbar, emits P c n (body pbar)) ->
  forall pbar, emits P c (k * n) (for_range k body pbar).
Proof.
  intros Hb. induction k as [|k IH]; intros pbar; cbn [for_range Nat.mul].
  - apply emits_ret.
  - apply emits_bind; [apply Hb|].
    intros [[|] pbar'].
    + apply IH.
    + eapply emits_weaken; [apply emits_ret | lia].
Qed.

(** One step through a computation: the bound is left open and filled in
    by the steps. *)
Ltac emits_step :=
  lazymatch goal with
  | |- emits _ _ _ (bind _ _) => eapply emits_bind; [|intro]
  | |- emits _ _ _ (try_except _ _) => eapply emits_try_except
  | |- emits _ _ _ (if _ then _ else _) => eapply emits_if
  | |- emits _ _ _ (ret _) => apply emits_ret
  | |- emits _ _ _ (raise _) => apply emits_raise
  | |- emits _ _ _ (send _) =>
      eapply emits_weaken; [apply emits_send | cbn; apply Nat.le_refl]
  | |- emits _ _ _ (print _) =>
      eapply emits_weaken; [apply emits_emit | cbn; apply Nat.le_refl]
  | |- emits _ _ _ (sleep _) =>
      eapply emits_weaken; [apply emits_emit | cbn; apply Nat.le_refl]
  | |- emits _ _ _ (emit _) =>
      eapply emits_weaken; [apply emits_emit | cbn; apply Nat.le_refl]
  | |- emits _ _ _ datetime_now =>
      eapply emits_weaken; [apply emits_datetime_now | cbn; apply Nat.le_refl]
  | |- emits _ _ _ (write_json _ _) =>
      eapply emits_weaken; [apply emits_write_json | cbn; apply Nat.le_refl]
  | |- emits _ _ _ (closing _) =>
      eapply emits_weaken; [eapply emits_closing | cbn; apply Nat.le_refl]
  | |- emits _ _ _ (dict_get _ _ _) => apply emits_dict_get
  | |- emits _ _ _ (response_json _) => apply emits_response_json
  | |- emits _ _ _ (str_split _ _) => apply emits_str_split
  | |- emits _ _ _ (last_item _) => apply emits_last_item
  | |- emits _ _ _ (mul_100 _) => apply emits_mul_100
  | |- emits _ _ _ (py_int _) => apply emits_py_int
  | |- emits _ _ _ (py_quote _) => apply emits_py_quote
  end.

Ltac emits_run := repeat (emits_step; try exact I; try reflexivity).

Lemma emits_poll_once_sends self op pbar :
  emits (loop_event (status_request self op)) is_send 1 (poll_once self op pbar).
Proof.
  eapply emits_weaken.
  - unfold poll_once, check_upload_status, tqdm_update, tqdm_set_description.
    emits_run.
  - cbn. lia.
Qed.

Lemma emits_track_progress P c n self op :
  (forall pbar, emits P c n (poll_once self op pbar)) ->
  P (EBar (bar 0)) -> P EBarClose ->
  emits P c (c (EBar (bar 0)) + 20 * n + c EBarClose) (track_progress self op).
Proof.
  intros Hturn Hbar Hclose. unfold track_progress.
  apply emits_closing; [exact Hclose|].
  apply emits_bind.
  - unfold tqdm_open. eapply emits_weaken.
    + apply emits_bind; [apply emits_emit; exact Hbar | intros; apply emits_ret].
    + fold (bar 0). lia.
  - intros pbar. now apply emits_for_range.
Qed.

Lemma emits_poll_once_sleeps self op pbar :
  emits (loop_event (status_request self op)) sleep_seconds 2 (poll_once self op pbar).
Proof.
  eapply emits_weaken.
  - unfold poll_once, check_upload_status, tqdm_update, tqdm_set_description.
    emits_run.
  - cbn. lia.
Qed.

Lemma emits_unique {A} (m : M A) w s evs evs' :
  snd (m w s) = s ++ evs -> snd (m w s) = s ++ evs' -> evs = evs'.
Proof. intros H H'. rewrite H in H'. now apply app_inv_head in H'. Qed.

Lemma loop_event_no_write r evs :
  Forall (loop_event r) evs ->
  total is_write evs = 0%nat /\ total is_clock_read evs = 0%nat
  /\ writes evs = [] /\ clock_reads evs = 0%nat.
Proof.
  induction 1 as [|e evs He _ IH]; [repeat split|].
  destruct IH as (I1 & I2 & I3 & I4).
  destruct e; cbn in *; try contradiction; auto.
Qed.

(** The log of the loop, in every world. *)
Lemma track_progress_log self op w s :
  exists evs,
    snd (track_progress self op w s) = s ++ evs ++ [EBarClose]
    /\ Forall (loop_event (status_request self op)) evs
    /\ (total is_send evs <= 20)%nat
    /\ (total sleep_seconds evs <= 40)%nat
    /\ writes evs = [].
Proof.
  destruct (emits_track_progress _ is_send 1 self op
              (emits_poll_once_sends self op) I I w s) as (e1 & H1 & F1 & B1).
  destruct (emits_track_progress _ sleep_seconds 2 self op
              (emits_poll_once_sleeps self op) I I w s) as (e2 & H2 & _ & B2).
  pose proof (emits_unique _ _ _ _ _ H1 H2) as <-. clear H2.
  assert (Hc : exists evs, e1 = evs ++ [EBarClose]).
  { unfold track_progress, closing in H1.
    destruct ((pbar <- tqdm_open 100 "Загрузка файла" "%" ;;
               for_range 20 (poll_once self op) pbar) w s) as [r s1] eqn:E.
    cbn [snd] in H1.
    assert (Hx : extends (pbar <- tqdm_open 100 "Загрузка файла" "%" ;;
                          for_range 20 (poll_once self op) pbar)).
    { apply extends_bind.
      - unfold tqdm_open. apply extends_bind; [apply extends_emit|].
        intros _. apply extends_ret.
      - intros pbar. apply extends_for_range. }
    destruct (Hx w s) as [evs Hevs]. rewrite E in Hevs. cbn [snd] in Hevs.
    subst s1. rewrite <- app_assoc in H1. apply app_inv_head in H1.
    now exists evs. }
  destruct Hc as [evs ->]. exists evs.
  apply Forall_app in F1 as [F1 _].
  rewrite total_app in B1, B2. cbn in B1, B2.
  repeat split; auto; try lia.
  apply (loop_event_no_write _ _ F1).
Qed.

(** X1: whatever the service answers, the polling loop sends at most 20
    requests, all of them status requests for the operation, sleeps 2
    seconds at a time and 40 seconds in all at most, writes no file, and
    closes the bar last, also when it raises. *)
Theorem polling_loop_budget self op w s :
  exists evs,
    snd (track_progress self op w s) = s ++ evs ++ [EBarClose]
    /\ Forall (loop_event (status_request self op)) evs
    /\ (total is_send evs <= 20)%nat
    /\ (total sleep_seconds evs <= 40)%nat
    /\ writes evs = []
    /\ clock_reads evs = 0%nat.
Proof.
  destruct (track_progress_log self op w s) as (evs & Hs & F & B1 & B2 & Hw).
  exists evs. destruct (loop_event_no_write _ _ F) as (_ & _ & _ & Hc).
  repeat split; assumption.
Qed.

(** ** What a whole run does in every world *)

Lemma api_request_intro token r :
  startswith base_url (url r) = true ->
  headers r = [("Authorization", ("OAuth " ++ token)%string)] ->
  api_request token r = true.
Proof.
  intros Hu Hh. unfold api_request. now rewrite Hu, Hh, pairs_eqb_refl.
Qed.

Ltac api_side :=
  try exact I; try reflexivity;
  try (apply api_request_intro; reflexivity).

Ltac emits_turn :=
  intro; eapply emits_weaken;
  [ unfold poll_once, check_upload_status, tqdm_update, tqdm_set_description;
    repeat (emits_step; api_side)
  | cbn; apply Nat.le_refl ].

Ltac emits_main :=
  eapply emits_weaken;
  [ unfold main, check_token, create_folder, get_cat_with_text, upload_from_url,
      save_result, get_file_info;
    cbv zeta;
    repeat (emits_step; api_side);
    eapply emits_track_progress; [emits_turn | exact I | exact I]
  | cbn; lia ].

Lemma main_requests_are_api_calls args :
  emits (api_event (token args)) is_send 24 (main args).
Proof. emits_main. Qed.

Lemma main_writes_once args : emits (fun _ => True) is_write 1 (main args).
Proof. emits_main. Qed.

Lemma main_sleeps_40 args : emits (fun _ => True) sleep_seconds 40 (main args).
Proof. emits_main. Qed.

Lemma length_writes s : List.length (writes s) = total is_write s.
Proof.
  induction s as [|e s IH]; [reflexivity|]. destruct e; cbn; auto.
Qed.

(** X2: in every world, each request of a run goes to the API host with
    the OAuth header of the token, and a run sends at most 24 requests,
    sleeps at most 40 seconds and writes at most one file. *)
Theorem run_stays_within_bounds args w :
  Forall (api_event (token args)) (snd (main args w []))
  /\ (total is_send (snd (main args w [])) <= 24)%nat
  /\ (total sleep_seconds (snd (main args w [])) <= 40)%nat
  /\ (List.length (writes (snd (main args w []))) <= 1)%nat.
Proof.
  destruct (main_requests_are_api_calls args w []) as (e1 & H1 & F1 & B1).
  destruct (main_sleeps_40 args w []) as (e2 & H2 & _ & B2).
  destruct (main_writes_once args w []) as (e3 & H3 & _ & B3).
  cbn [app] in *. rewrite H1 in *. subst e2 e3.
  repeat split; auto. now rewrite length_writes.
Qed.

(** ** The two reading methods *)

(** X3: [check_upload_status] sends one GET for the operation and never
    raises: it returns the decoded body on status 200, and [None] on any
    other status, on a transport exception and on a body that is not
    JSON. *)
Theorem check_upload_status_total self op w s :
  let out := respond w (status_request self op) (sent (status_request self op) s) in
  snd (check_upload_status self op w s) = s ++ [ESend (status_request self op)]
  /\ (forall v, out = Response 200 (Some v) ->
      fst (check_upload_status self op w s) = Val v)
  /\ (out = Response 200 None -> fst (check_upload_status self op w s) = Val JNull)
  /\ (forall c body, out = Response c body -> c <> 200 ->
      fst (check_upload_status self op w s) = Val JNull)
  /\ (out = Failure -> fst (check_upload_status self op w s) = Val JNull).
Proof.
  intros out. rewrite check_upload_status_run. fold out. cbn [fst snd].
  repeat split.
  - now intros v ->.
  - now intros ->.
  - intros c body -> Hc. apply Z.eqb_neq in Hc. cbn. rewrite Hc. now destruct body.
  - now intros ->.
Qed.

Lemma check_upload_status_total_witness :
  fst (check_upload_status (YDConnector_init "secret") "ABC123"
         (scripted ok_200 created (accepted sample_href)
                   (fun _ => Response 503 (Some (JStr "busy"))) ok_200) [])
  = Val JNull
  /\ fst (check_upload_status (YDConnector_init "secret") "ABC123"
         (scripted ok_200 created (accepted sample_href)
                   (fun _ => status_only "success") ok_200) [])
  = Val (JDict [("status", JStr "success")]).
Proof.
  split.
  - apply (proj1 (proj2 (proj2 (proj2 (check_upload_status_total _ _ _ _)))))
      with (c := 503) (body := Some (JStr "busy")); [reflexivity | discriminate].
  - apply (proj1 (proj2 (check_upload_status_total _ _ _ _))). reflexivity.
Defined.

(** X4: [get_file_info] sends one GET for the path and never raises: it
    returns the decoded body on status 200, and [None] on any other status,
    on a transport exception and on a body that is not JSON. *)
Theorem get_file_info_total self file_path w s :
  let out := respond w (file_info_request self file_path)
                     (sent (file_info_request self file_path) s) in
  snd (get_file_info self file_path w s) = s ++ [ESend (file_info_request self file_path)]
  /\ (forall v, out = Response 200 (Some v) ->
      fst (get_file_info self file_path w s) = Val v)
  /\ (out = Response 200 None -> fst (get_file_info self file_path w s) = Val JNull)
  /\ (forall c body, out = Response c body -> c <> 200 ->
      fst (get_file_info self file_path w s) = Val JNull)
  /\ (out = Failure -> fst (get_file_info self file_path w s) = Val JNull).
Proof.
  intros out. rewrite get_file_info_run. fold out. cbn [fst snd].
  repeat split.
  - now intros v ->.
  - now intros ->.
  - intros c body -> Hc. apply Z.eqb_neq in Hc. cbn. rewrite Hc. now destruct body.
  - now intros ->.
Qed.

Lemma get_file_info_total_witness :
  fst (get_file_info (YDConnector_init "secret") "cats/hi.jpg"
         (scripted ok_200 created (accepted sample_href)
                   (fun _ => Failure) (Response 404 None)) [])
  = Val JNull
  /\ fst (get_file_info (YDConnector_init "secret") "cats/hi.jpg" bare_info_world [])
  = Val (JDict [("size", JInt 1234)]).
Proof.
  split.
  - apply (proj1 (proj2 (proj2 (proj2 (get_file_info_total _ _ _ _)))))
      with (c := 404) (body := None); [reflexivity | discriminate].
  - apply (proj1 (proj2 (get_file_info_total _ _ _ _))). reflexivity.
Defined.

(** ** The places where [main] gives up *)

(** X5: when the folder creation is answered with a status other than 201
    and 409, [main] prints its message and returns: the upload is never
    requested and no file is written. *)
Theorem refused_folder_stops_the_run args w c body :
  let yandex := YDConnector_init (token args) in
  (exists b, respond w (check_token_request yandex) 0 = Response 200 b) ->
  respond w (create_folder_request yandex (group args)) 0 = Response c body ->
  c <> 201 -> c <> 409 ->
  fst (main args w []) = Val tt
  /\ requests (snd (main args w []))
     = [check_token_request yandex; create_folder_request yandex (group args)]
  /\ writes (snd (main args w [])) = []
  /\ List.last (snd (main args w [])) ENow
     = EPrint [Txt "ОШИБКА: Не удалось создать папку, завершаем работу"].
Proof.
  intros yandex [b0 H0] H1 Hc1 Hc2.
  assert (E : main args w [] =
              (Val tt,
               [ EPrint [Txt "=== Загрузка картинки кота на Яндекс.Диск ==="];
                 EPrint [Txt "Текст на картинке: "; Txt (text args)];
                 EPrint [Txt "Группа (папка): "; Txt (group args)];
                 EPrint [Txt (str_repeat "=" 50)];
                 EPrint [Txt "Проверяем токен Яндекс.Диска..."];
                 ESend (check_token_request yandex);
                 EPrint [Txt "OK: Токен действителен"];
                 EPrint [Txt "Создаем папку на Яндекс.Диске..."];
                 ESend (create_folder_request yandex (group args));
                 EPrint [Txt "ОШИБКА: Не удалось создать папку, завершаем работу"] ])).
  { unfold main. cbv [bind print emit].
    rewrite check_token_run. cbn [app]. count_sent. fold yandex. rewrite H0.
    cbn [Z.eqb Pos.eqb negb].
    rewrite create_folder_run. cbn [app]. count_sent. fold yandex. rewrite H1.
    apply Z.eqb_neq in Hc1, Hc2. rewrite Hc1, Hc2. reflexivity. }
  rewrite E. repeat split.
Qed.

Lemma refused_folder_stops_the_run_witness :
  requests (snd (main sample_args
              (scripted ok_200 (Response 507 None) (accepted sample_href)
                        (fun _ => status_only "success") ok_200) []))
  = [check_token_request (YDConnector_init "secret");
     create_folder_request (YDConnector_init "secret") "cats"].
Proof.
  apply (refused_folder_stops_the_run sample_args
           (scripted ok_200 (Response 507 None) (accepted sample_href)
                     (fun _ => status_only "success") ok_200) 507 None).
  - eexists. reflexivity.
  - reflexivity.
  - discriminate.
  - discriminate.
Defined.

(** X6: when the upload is not accepted (a status other than 202, or no
    answer at all), [main] prints its message and returns: the operation is
    never polled, no file info is asked for and no file is written. *)
Theorem refused_upload_stops_the_run args w :
  let yandex := YDConnector_init (token args) in
  let file_path := (group args ++ "/" ++ text args ++ ".jpg")%string in
  let cat_url := (cat_template ++ quote (text args))%string in
  (exists b, respond w (check_token_request yandex) 0 = Response 200 b) ->
  (exists c b, respond w (create_folder_request yandex (group args)) 0 = Response c b
               /\ (c = 201 \/ c = 409)) ->
  (forall body, respond w (upload_request yandex cat_url file_path) 0
                <> Response 202 body) ->
  main args w []
  = (Val tt,
     removelast (startup_trace args)
       ++ [EPrint [Txt "ОШИБКА: Ошибка при запуске загрузки"]])
  /\ requests (snd (main args w []))
     = [check_token_request yandex; create_folder_request yandex (group args);
        upload_request yandex cat_url file_path]
  /\ writes (snd (main args w [])) = [].
Proof.
  intros yandex file_path cat_url (b0 & H0) (c1 & b1 & H1 & Hc) H2.
  assert (E : main args w [] =
              (Val tt,
               removelast (startup_trace args)
                 ++ [EPrint [Txt "ОШИБКА: Ошибка при запуске загрузки"]])).
  { unfold main. cbv [bind print emit].
    rewrite check_token_run. cbn [app]. count_sent. fold yandex. rewrite H0.
    cbn [Z.eqb Pos.eqb negb].
    rewrite create_folder_run. cbn [app]. count_sent. fold yandex. rewrite H1.
    replace ((c1 =? 201) || (c1 =? 409)) with true
      by (destruct Hc; subst; reflexivity).
    cbn [negb app].
    rewrite get_cat_with_text_utf8. cbv [truthy_str].
    assert (Hurl : ((cat_template ++ quote (text args)) =? "")%string = false)
      by reflexivity.
    rewrite Hurl. cbn [negb app].
    rewrite upload_from_url_run. cbn [app]. count_sent.
    fold cat_url file_path.
    destruct (respond w (upload_request yandex cat_url file_path) 0) as [c body|];
      [|reflexivity].
    destruct (Z.eqb_spec c 202) as [->|Hne]; [now elim (H2 body) | reflexivity]. }
  rewrite E. repeat split.
Qed.

Lemma refused_upload_stops_the_run_witness :
  requests (snd (main sample_args
              (scripted ok_200 created (Response 401 None)
                        (fun _ => status_only "success") ok_200) []))
  = [check_token_request (YDConnector_init "secret");
     create_folder_request (YDConnector_init "secret") "cats";
     upload_request (YDConnector_init "secret")
                    "https://cataas.com/cat/says/hi" "cats/hi.jpg"].
Proof.
  apply (refused_upload_stops_the_run sample_args
           (scripted ok_200 created (Response 401 None)
                     (fun _ => status_only "success") ok_200)).
  - eexists. reflexivity.
  - exists 201, (Some (JDict [])). split; [reflexivity | now left].
  - intros body. discriminate.
Defined.

(** ** The operation id, for every [href] *)

Lemma occurs_cons sep c s :
  occurs sep (String c s) -> startswith sep (String c s) = true \/ occurs sep s.
Proof.
  intros (a & b & E). destruct a as [|x a].
  - left. cbn [append] in E. rewrite E. apply startswith_append.
  - right. cbn [append] in E. injection E as _ E. now exists a, b.
Qed.

Lemma not_occurs_empty sep : sep <> "" -> ~ occurs sep "".
Proof.
  intros Hne (a & b & E). destruct a; [|discriminate].
  destruct sep; [contradiction | discriminate].
Qed.

(** The last piece of a split holds no separator; it is the whole string
    when there is no separator at all, and otherwise what follows one. *)
Lemma split_last_cases sep :
  sep <> "" ->
  forall k s cur,
    (String.length s <= k)%nat ->
    (List.last (split_from sep 0 cur s) "" = (cur ++ s)%string /\ ~ occurs sep s)
    \/ (exists pre t,
          s = (pre ++ sep ++ t)%string
          /\ List.last (split_from sep 0 cur s) "" = t
          /\ ~ occurs sep t).
Proof.
  intros Hne. induction k as [|k IH]; intros s cur L.
  - destruct s; [|simpl in L; lia]. left. cbn. rewrite append_nil_r.
    split; [reflexivity | now apply not_occurs_empty].
  - destruct s as [|c s].
    + left. cbn. rewrite append_nil_r.
      split; [reflexivity | now apply not_occurs_empty].
    + destruct (startswith sep (String c s)) eqn:E.
      * destruct (startswith_inv _ _ E) as [r Er]. rewrite Er.
        rewrite split_from_match by assumption.
        rewrite last_cons_nonempty by apply split_from_nonempty.
        assert (Lr : (String.length r <= k)%nat).
        { assert (String.length (String c s)
                  = (String.length sep + String.length r)%nat)
            by (rewrite Er; apply length_append).
          destruct sep; [contradiction | simpl in *; lia]. }
        right. destruct (IH r "" Lr) as [[Hl Hn] | (pre & t & Hr & Hl & Hn)].
        -- exists "", r. repeat split; assumption.
        -- exists (sep ++ pre)%string, t. rewrite append_assoc, <- Hr.
           repeat split; assumption.
      * cbn [split_from]. rewrite E.
        destruct (IH s (cur ++ String c "")%string ltac:(simpl in L; lia))
          as [[Hl Hn] | (pre & t & Hr & Hl & Hn)].
        -- left. rewrite Hl, append_assoc. split; [reflexivity|].
           intros Ho. apply occurs_cons in Ho as [Ho|Ho]; congruence.
        -- right. exists (String c pre), t. subst s.
           repeat split; assumption.
Qed.

(** X7: on every 202 response whose [href] is a string, the id that
    [upload_from_url] returns is a tail of [href] that holds no marker: all
    of [href] when [href] has no marker, and otherwise what follows a
    marker. *)
Theorem operation_id_is_marker_free_tail self file_url file_path w s d href :
  respond w (upload_request self file_url file_path)
          (sent (upload_request self file_url file_path) s)
  = Response 202 (Some (JDict d)) ->
  assoc "href" d = Some (JStr href) ->
  exists id,
    fst (upload_from_url self file_url file_path w s) = Val (Some id)
    /\ ends_with id href
    /\ ~ occurs marker id
    /\ ((id = href /\ ~ occurs marker href)
        \/ exists pre, href = (pre ++ marker ++ id)%string).
Proof.
  intros Hout Hd. rewrite upload_from_url_run, Hout. cbn [fst Z.eqb Pos.eqb].
  rewrite Hd. eexists. split; [reflexivity|]. unfold split.
  destruct (split_last_cases marker ltac:(discriminate) _ href "" (Nat.le_refl _))
    as [[Hl Hn] | (pre & t & Hr & Hl & Hn)]; rewrite Hl.
  - cbn [append]. repeat split; auto. now exists "".
  - repeat split; auto.
    + exists (pre ++ marker)%string. now rewrite append_assoc.
    + right. now exists pre.
Qed.

Lemma operation_id_is_marker_free_tail_witness :
  exists id,
    fst (upload_from_url (YDConnector_init "secret")
           "https://cataas.com/cat/says/hi" "cats/hi.jpg"
           (scripted ok_200 created
                     (accepted "/v1/disk/operations?operation_id=Aoperation_id=B")
                     (fun _ => Failure) Failure)
           []) = Val (Some id)
    /\ ends_with id "/v1/disk/operations?operation_id=Aoperation_id=B"
    /\ ~ occurs marker id
    /\ ((id = "/v1/disk/operations?operation_id=Aoperation_id=B"
         /\ ~ occurs marker "/v1/disk/operations?operation_id=Aoperation_id=B")
        \/ exists pre,
            "/v1/disk/operations?operation_id=Aoperation_id=B"
            = (pre ++ marker ++ id)%string).
Proof.
  apply (operation_id_is_marker_free_tail (YDConnector_init "secret")
           "https://cataas.com/cat/says/hi" "cats/hi.jpg"
           (scripted ok_200 created
                     (accepted "/v1/disk/operations?operation_id=Aoperation_id=B")
                     (fun _ => Failure) Failure)
           []
           [("href", JStr "/v1/disk/operations?operation_id=Aoperation_id=B");
            ("method", JStr "GET")]).
  - reflexivity.
  - reflexivity.
Defined.

(** ** The bar while the polls bring no news *)

Lemma bar_counts_app s s' : bar_counts (s ++ s') = bar_counts s ++ bar_counts s'.
Proof.
  induction s as [|e s IH]; simpl; [reflexivity|].
  destruct e; rewrite ?IH; reflexivity.
Qed.

Lemma last_default {A} (a : A) l d d' : List.last (a :: l) d = List.last (a :: l) d'.
Proof.
  revert a. induction l as [|b l IH]; intros a; [reflexivity|].
  change (List.last (b :: l) d = List.last (b :: l) d'). apply IH.
Qed.

Lemma last_append {A} (l l' : list A) d :
  List.last (l ++ l') d = List.last l' (List.last l d).
Proof.
  induction l as [|a l IH]; [reflexivity|].
  destruct l as [|b l].
  - destruct l' as [|c l']; [reflexivity|]. exact (last_default c l' d a).
  - exact IH.
Qed.

Lemma nondecreasing_app lo l l' :
  nondecreasing lo l -> nondecreasing (List.last l lo) l' -> nondecreasing lo (l ++ l').
Proof.
  revert lo. induction l as [|x l IH]; intros lo H H'; [exact H'|].
  destruct H as [Hx Hl]. split; [exact Hx|]. apply IH; [exact Hl|].
  destruct l as [|z l]; [exact H'|].
  rewrite (last_default z l x lo). exact H'.
Qed.

Lemma counters_app lo l l' :
  counters lo (l ++ l') = counters lo l ++ counters (List.last (counters lo l) lo) l'.
Proof.
  revert lo. induction l as [|[z|] l IH]; intros lo; cbn [counters app].
  - reflexivity.
  - rewrite IH. cbn [app]. do 3 f_equal.
    destruct (counters (Z.max lo z) l) as [|x c]; [reflexivity|].
    exact (last_default x c (Z.max lo z) lo).
  - apply IH.
Qed.

Lemma counters_nondecreasing lo l : nondecreasing lo (counters lo l).
Proof.
  revert lo. induction l as [|[z|] l IH]; intros lo; cbn [counters nondecreasing].
  - exact I.
  - split; [lia | apply IH].
  - apply IH.
Qed.

Section Quiet.
Variables (self : YDConnector) (op : string) (w : World).
Local Abbreviation req := (status_request self op).

(** A turn without news: either nothing but a sleep, or the bar is redrawn
    with a counter that is not lower, and then the sleep. *)
Lemma poll_once_quiet pbar s :
  no_news (respond w req (sent req s)) = true ->
  exists pbar' evs,
    poll_once self op pbar w s = (Val (Next, pbar'), s ++ ESend req :: evs)
    /\ sent req evs = 0%nat
    /\ Forall (poll_event req) evs
    /\ total sleep_seconds evs = 2%nat
    /\ nondecreasing (Tqdm.n pbar) (bar_counts evs)
    /\ Tqdm.n pbar' = List.last (bar_counts evs) (Tqdm.n pbar)
    /\ (forall d, List.last (ESend req :: evs) d = ESleep 2)
    /\ bar_counts evs
       = counters (Tqdm.n pbar) [report w (respond w req (sent req s))].
Proof.
  unfold no_news, report. intros H.
  destruct (truthy (payload_of (respond w req (sent req s)))) eqn:Ht.
  - cbn in H.
    destruct (payload_of (respond w req (sent req s))) as [| | | | | |d] eqn:Hp;
      try discriminate.
    apply andb_true_iff in H as [Hs Hpr]. apply negb_true_iff in Hs.
    destruct (progress_ok_shown w _ Hpr) as [z Hz]. rewrite Hz.
    eexists _, [_; _].
    split; [|split; [|split; [|split; [|split; [|split; [|split]]]]]].
    + apply (poll_once_running self op w pbar s d z Hp); [|exact Hs|exact Hz].
      intros ->; cbn in Ht; discriminate.
    + reflexivity.
    + apply Forall_cons; [right; left; eexists; reflexivity|].
      apply Forall_cons; [right; right; reflexivity | apply Forall_nil].
    + reflexivity.
    + cbn. split; [lia | exact I].
    + reflexivity.
    + reflexivity.
    + cbn [bar_counts counters Tqdm.n]. f_equal. lia.
  - exists pbar, [ESleep 2].
    split; [|split; [|split; [|split; [|split; [|split; [|split]]]]]].
    + now apply poll_once_none.
    + reflexivity.
    + apply Forall_cons; [right; right; reflexivity | apply Forall_nil].
    + reflexivity.
    + exact I.
    + reflexivity.
    + reflexivity.
    + reflexivity.
Qed.

Lemma for_range_quiet (k m : nat) :
  forall pbar s,
    (forall j, (j < k)%nat -> no_news (respond w req (sent req s + j)) = true) ->
    exists pbar' evs,
      for_range (k + m) (poll_once self op) pbar w s
        = for_range m (poll_once self op) pbar' w (s ++ evs)
      /\ sent req evs = k
      /\ Forall (poll_event req) evs
      /\ total sleep_seconds evs = (2 * k)%nat
      /\ nondecreasing (Tqdm.n pbar) (bar_counts evs)
      /\ Tqdm.n pbar' = List.last (bar_counts evs) (Tqdm.n pbar)
      /\ (evs = [] \/ forall d, List.last evs d = ESleep 2)
      /\ bar_counts evs
         = counters (Tqdm.n pbar)
             (map (fun j => report w (respond w req (sent req s + j))) (seq 0 k)).
Proof.
  induction k as [|k IH]; intros pbar s H.
  - exists pbar, []. rewrite app_nil_r. repeat split; try (now left); constructor.
  - destruct (poll_once_quiet pbar s)
      as (pbar1 & e1 & Hrun & Hs1 & He1 & Hz1 & Hm1 & Hn1 & Hl1 & Hc1).
    { rewrite <- (Nat.add_0_r (sent req s)). apply H. lia. }
    destruct (IH pbar1 (s ++ ESend req :: e1))
      as (pbar' & evs & Hloop & Hs & He & Hz & Hm & Hn & Hl & Hc).
    { intros j Hj. rewrite sent_app. cbn [sent]. rewrite request_eqb_refl, Hs1.
      replace (sent req s + (1 + 0) + j)%nat with (sent req s + S j)%nat by lia.
      apply H. lia. }
    exists pbar', (ESend req :: e1 ++ evs).
    split; [|split; [|split; [|split; [|split; [|split; [|split]]]]]].
    + cbn [Nat.add]. rewrite for_range_S. unfold bind at 1. rewrite Hrun.
      rewrite Hloop. now rewrite <- app_assoc.
    + cbn [sent]. rewrite request_eqb_refl, sent_app, Hs1, Hs. reflexivity.
    + constructor; [left; reflexivity|]. apply Forall_app. now split.
    + cbn [total sleep_seconds]. rewrite total_app, Hz1, Hz. lia.
    + cbn [bar_counts]. rewrite bar_counts_app.
      apply nondecreasing_app; [exact Hm1 | now rewrite <- Hn1].
    + cbn [bar_counts]. rewrite bar_counts_app, Hn, Hn1.
      now rewrite last_append.
    + right. intros d.
      change (ESend req :: e1 ++ evs) with ((ESend req :: e1) ++ evs).
      rewrite last_append. destruct Hl as [-> | Hl]; [apply Hl1 | apply Hl].
    + cbn [bar_counts]. rewrite bar_counts_app, Hc, Hc1.
      change (seq 0 (S k)) with ([0%nat] ++ seq 1 k).
      rewrite map_app, counters_app, <- seq_shift, map_map.
      cbn [map]. rewrite Nat.add_0_r, <- Hc1, <- Hn1.
      f_equal. f_equal. apply map_ext. intros j.
      rewrite sent_app. cbn [sent]. rewrite request_eqb_refl, Hs1.
      now replace (sent req s + (1 + 0) + j)%nat with (sent req s + S j)%nat by lia.
Qed.
End Quiet.

Section QuietLoop.
Variables (self : YDConnector) (op : string) (w : World).
Local Abbreviation req := (status_request self op).

(** The loop after [k] polls without news. *)
Lemma track_progress_after_quiet s k :
  sent req s = 0%nat ->
  (k <= 20)%nat ->
  (forall j, (j < k)%nat -> no_news (respond w req j) = true) ->
  exists evs pbar,
    track_progress self op w s
    = closing (for_range (20 - k) (poll_once self op) pbar) w
              (s ++ EBar (bar 0) :: evs)
    /\ sent req (s ++ EBar (bar 0) :: evs) = k
    /\ Forall (poll_event req) evs
    /\ total sleep_seconds evs = (2 * k)%nat
    /\ nondecreasing 0 (bar_counts evs)
    /\ Tqdm.n pbar = List.last (bar_counts evs) 0
    /\ (evs = [] \/ forall d, List.last evs d = ESleep 2)
    /\ bar_counts evs
       = counters 0 (map (fun j => report w (respond w req j)) (seq 0 k)).
Proof.
  intros Hs Hk Hquiet.
  destruct (for_range_quiet self op w k (20 - k) (bar 0) (s ++ [EBar (bar 0)]))
    as (pbar & evs & Hloop & Hn & Hev & Hz & Hm & Hl & Hlast & Hc).
  { intros j Hj. rewrite sent_app, Hs. cbn. now apply Hquiet. }
  replace (k + (20 - k))%nat with 20%nat in Hloop by lia.
  exists evs, pbar. split; [|repeat split; auto].
  - unfold track_progress, closing, bind at 1. rewrite tqdm_open_run.
    rewrite Hloop, <- app_assoc. reflexivity.
  - rewrite sent_app, Hs. cbn [sent]. exact Hn.
  - rewrite Hc. rewrite sent_app, Hs. reflexivity.
Qed.
End QuietLoop.

(** X8: while the polls bring no terminal status, the counter of the bar
    never goes down.  After [k] such polls the loop has sent [k] requests
    and slept [k] times 2 seconds, and the counters it has shown are those
    of a bar that starts at 0 and, at each payload, is raised to the
    reported percent when that is higher and redrawn as it is when the
    report is lower. *)
Theorem bar_never_goes_back self op w s k :
  sent (status_request self op) s = 0%nat ->
  (k <= 20)%nat ->
  (forall j, (j < k)%nat -> no_news (respond w (status_request self op) j) = true) ->
  exists evs rest,
    snd (track_progress self op w s) = s ++ EBar (bar 0) :: evs ++ rest
    /\ sent (status_request self op) evs = k
    /\ Forall (poll_event (status_request self op)) evs
    /\ nondecreasing 0 (bar_counts evs)
    /\ total sleep_seconds evs = (2 * k)%nat
    /\ (evs = [] \/ forall d, List.last evs d = ESleep 2)
    /\ bar_counts evs
       = counters 0 (map (fun j => report w (respond w (status_request self op) j))
                         (seq 0 k)).
Proof.
  intros Hs Hk Hquiet.
  destruct (track_progress_after_quiet self op w s k Hs Hk Hquiet)
    as (evs & pbar & Hrun & Hn & Hev & Hz & Hm & _ & Hl & Hc).
  rewrite Hrun.
  destruct (extends_closing _ (extends_for_range self op (20 - k) pbar) w
              (s ++ EBar (bar 0) :: evs)) as [rest ->].
  exists evs, rest. rewrite <- app_assoc. repeat split; auto.
  rewrite sent_app, Hs in Hn. exact Hn.
Qed.

Lemma bar_never_goes_back_witness :
  exists evs rest,
    snd (track_progress (YDConnector_init "secret") "ABC123"
           (scripted ok_200 created (accepted sample_href)
              (fun k => match k with
                        | 0%nat => in_progress float_0_6
                        | 1%nat => in_progress float_0_3
                        | _ => status_only "success"
                        end)
              ok_200) [])
    = [] ++ EBar (bar 0) :: evs ++ rest
    /\ sent (status_request (YDConnector_init "secret") "ABC123") evs = 2%nat
    /\ Forall (poll_event (status_request (YDConnector_init "secret") "ABC123")) evs
    /\ nondecreasing 0 (bar_counts evs)
    /\ total sleep_seconds evs = 4%nat
    /\ (evs = [] \/ forall d, List.last evs d = ESleep 2)
    /\ bar_counts evs = [60; 60].
Proof.
  destruct (bar_never_goes_back (YDConnector_init "secret") "ABC123"
              (scripted ok_200 created (accepted sample_href)
                 (fun k => match k with
                           | 0%nat => in_progress float_0_6
                           | 1%nat => in_progress float_0_3
                           | _ => status_only "success"
                           end)
                 ok_200) [] 2)
    as (evs & rest & H).
  - reflexivity.
  - lia.
  - intros [|[|j]] Hj; [reflexivity | reflexivity | lia].
  - exists evs, rest. exact H.
Defined.

(** X9: when none of the twenty polls brings a terminal status, the loop
    has sent exactly 20 requests and slept exactly 40 seconds, the last
    sleep coming after the last poll. *)
Theorem exhausted_budget_takes_40_seconds self op w s :
  sent (status_request self op) s = 0%nat ->
  (forall j, (j < 20)%nat -> no_news (respond w (status_request self op) j) = true) ->
  exists evs pbar,
    track_progress self op w s = (Val pbar, s ++ EBar (bar 0) :: evs ++ [EBarClose])
    /\ sent (status_request self op) evs = 20%nat
    /\ total sleep_seconds evs = 40%nat
    /\ List.last evs ENow = ESleep 2
    /\ Tqdm.n pbar = List.last (bar_counts evs) 0.
Proof.
  intros Hs Hquiet.
  destruct (track_progress_after_quiet self op w s 20 Hs (Nat.le_refl _) Hquiet)
    as (evs & pbar & Hrun & Hn & Hev & Hz & _ & Hl & Hlast & _).
  exists evs, pbar. rewrite Hrun. cbn [Nat.sub for_range]. unfold closing, ret.
  rewrite <- app_assoc. rewrite sent_app, Hs in Hn. cbn [app sent Nat.add] in *.
  repeat split; auto.
  destruct Hlast as [-> | Hlast]; [discriminate Hn | apply Hlast].
Qed.

Lemma exhausted_budget_takes_40_seconds_witness :
  exists evs pbar,
    track_progress (YDConnector_init "secret") "ABC123"
      (scripted ok_200 created (accepted sample_href) (fun _ => Failure) ok_200) []
    = (Val pbar, [] ++ EBar (bar 0) :: evs ++ [EBarClose])
    /\ sent (status_request (YDConnector_init "secret") "ABC123") evs = 20%nat
    /\ total sleep_seconds evs = 40%nat
    /\ List.last evs ENow = ESleep 2
    /\ Tqdm.n pbar = List.last (bar_counts evs) 0.
Proof.
  apply (exhausted_budget_takes_40_seconds (YDConnector_init "secret") "ABC123").
  - reflexivity.
  - intros j Hj. reflexivity.
Defined.

(** ** How the loop ends *)

(** X10: when a poll, after any number of polls without news, brings the
    status "success", the counter of the bar is set to exactly 100 whatever
    it showed before, the loop ends, and [main] asks for the file info. *)
Theorem success_sets_bar_to_100 args w op k d :
  let yandex := YDConnector_init (token args) in
  let file_path := (group args ++ "/" ++ text args ++ ".jpg")%string in
  started args w op ->
  (k < 20)%nat ->
  (forall j, (j < k)%nat -> no_news (respond w (status_request yandex op) j) = true) ->
  respond w (status_request yandex op) k = Response 200 (Some (JDict d)) ->
  assoc "status" d = Some (JStr "success") ->
  exists evs pbar rest,
    snd (main args w [])
    = startup_trace args
        ++ EBar (bar 0) :: evs
        ++ [ESend (status_request yandex op); EBar pbar; EBarClose;
            ESend (file_info_request yandex file_path)]
        ++ rest
    /\ Tqdm.n pbar = 100
    /\ sent (status_request yandex op) evs = k
    /\ Forall (poll_event (status_request yandex op)) evs.
Proof.
  intros yandex file_path Hst Hk Hquiet Hk_ok Hd.
  destruct (member_status_success d Hd) as [Hne Hf].
  destruct (track_progress_decided yandex op w (startup_trace args) k
              (fun pbar => Tqdm.mk (Tqdm.total pbar) (Tqdm.desc pbar)
                                   (Tqdm.unit pbar)
                                   (Tqdm.n pbar + (100 - Tqdm.n pbar)))
              (fun pbar =>
                 [ESend (status_request yandex op);
                  EBar (Tqdm.mk (Tqdm.total pbar) (Tqdm.desc pbar)
                                (Tqdm.unit pbar)
                                (Tqdm.n pbar + (100 - Tqdm.n pbar)))]))
    as (evs & pbar & Hrun & Hn & Hev); auto using sent_status_startup.
  { intros pbar s' Hs'. apply (poll_once_success yandex op w pbar s' d); auto.
    rewrite Hs', Hk_ok. reflexivity. }
  rewrite (main_started args w op Hst). unfold bind at 1.
  fold yandex. rewrite Hrun.
  match goal with
  | |- context [save_result ?y ?a ?u ?f ?p w ?s] =>
      destruct (save_result_asks y a u f p w s) as [rest ->]
  end.
  exists evs, (Tqdm.mk (Tqdm.total pbar) (Tqdm.desc pbar) (Tqdm.unit pbar)
                       (Tqdm.n pbar + (100 - Tqdm.n pbar))), rest.
  split; [|split; [|split]]; [|cbn [Tqdm.n]; lia|exact Hn|exact Hev].
  rewrite <- !app_assoc. cbn [app]. rewrite <- !app_assoc. reflexivity.
Qed.

Lemma success_sets_bar_to_100_witness :
  exists evs pbar rest,
    snd (main sample_args
           (scripted ok_200 created (accepted sample_href)
              (fun k => match k with
                        | 0%nat => in_progress float_1_5
                        | _ => status_only "success"
                        end)
              ok_200) [])
    = startup_trace sample_args
        ++ EBar (bar 0) :: evs
        ++ [ESend (status_request (YDConnector_init "secret") "ABC123");
            EBar pbar; EBarClose;
            ESend (file_info_request (YDConnector_init "secret") "cats/hi.jpg")]
        ++ rest
    /\ Tqdm.n pbar = 100
    /\ sent (status_request (YDConnector_init "secret") "ABC123") evs = 1%nat
    /\ Forall (poll_event (status_request (YDConnector_init "secret") "ABC123")) evs.
Proof.
  apply (success_sets_bar_to_100 sample_args _ "ABC123" 1 [("status", JStr "success")]).
  - apply sample_started.
  - lia.
  - intros [|j] Hj; [reflexivity | lia].
  - reflexivity.
  - reflexivity.
Defined.

(** A report above 1 takes the counter above the total of 100. *)
Example bar_overshoots (w : World) : shown_percent w (JFloat float_1_5) = Val 150.
Proof. reflexivity. Qed.

Section Raising.
Variables (self : YDConnector) (op : string) (w : World).
Local Abbreviation req := (status_request self op).

Lemma poll_once_not_a_dict pbar s :
  truthy (payload_of (respond w req (sent req s))) = true ->
  (forall d, payload_of (respond w req (sent req s)) <> JDict d) ->
  poll_once self op pbar w s = (Exc AttributeError, s ++ [ESend req]).
Proof.
  intros Ht Hd. unfold poll_once, bind at 1.
  rewrite check_upload_status_run. rewrite Ht. cbn [negb]. unfold bind at 1.
  destruct (payload_of (respond w req (sent req s))); try reflexivity.
  now elim (Hd d).
Qed.

Lemma poll_once_bad_progress pbar s d e :
  payload_of (respond w req (sent req s)) = JDict d ->
  d <> [] ->
  terminal (member d "status" JNull) = false ->
  shown_percent w (member d "progress" (JInt 0)) = Exc e ->
  poll_once self op pbar w s = (Exc e, s ++ [ESend req]).
Proof.
  intros Hp Hd Ht Hz. unfold poll_once, bind at 1.
  rewrite check_upload_status_run. rewrite Hp.
  replace (truthy (JDict d)) with true by (destruct d; [contradiction | reflexivity]).
  cbn [negb]. unfold bind at 1. cbn [dict_get ret].
  fold (member d "status" JNull).
  apply orb_false_iff in Ht as [-> ->].
  unfold bind at 1. cbn [dict_get ret]. fold (member d "progress" (JInt 0)).
  now rewrite bind_percent, Hz.
Qed.

(** [k] polls without news, then a turn that raises. *)
Lemma track_progress_raised s k e :
  sent req s = 0%nat ->
  (k < 20)%nat ->
  (forall j, (j < k)%nat -> no_news (respond w req j) = true) ->
  (forall pbar s', sent req s' = k ->
     poll_once self op pbar w s' = (Exc e, s' ++ [ESend req])) ->
  exists evs,
    track_progress self op w s
    = (Exc e, s ++ EBar (bar 0) :: evs ++ [ESend req; EBarClose])
    /\ sent req evs = k
    /\ Forall (poll_event req) evs.
Proof.
  intros Hs Hk Hquiet Hlast.
  destruct (track_progress_after_quiet self op w s k Hs ltac:(lia) Hquiet)
    as (evs & pbar & Hrun & Hn & Hev & _).
  exists evs. split; [|split; [|exact Hev]].
  - rewrite Hrun. replace (20 - k)%nat with (S (19 - k)) by lia.
    unfold closing. rewrite for_range_S. unfold bind at 1.
    rewrite (Hlast _ _ Hn). rewrite <- !app_assoc. reflexivity.
  - rewrite sent_app, Hs in Hn. exact Hn.
Qed.
End Raising.

(** X11: a status body that the loop cannot read ends the run with an
    exception, since [main] has no [try] around the loop: a body that is
    true but not an object raises AttributeError, and a progress that is
    neither a number nor convertible raises the exception of
    [int(progress * 100)].  The bar is closed, and neither the file info is
    asked for nor a file written. *)
Theorem unreadable_status_ends_the_run args w op k :
  let yandex := YDConnector_init (token args) in
  let out := respond w (status_request yandex op) k in
  started args w op ->
  (k < 20)%nat ->
  (forall j, (j < k)%nat -> no_news (respond w (status_request yandex op) j) = true) ->
  forall e,
    (truthy (payload_of out) = true /\ (forall d, payload_of out <> JDict d)
     /\ e = AttributeError)
    \/ (exists d, payload_of out = JDict d /\ d <> []
                  /\ terminal (member d "status" JNull) = false
                  /\ shown_percent w (member d "progress" (JInt 0)) = Exc e) ->
    exists evs,
      main args w []
      = (Exc e,
         startup_trace args
           ++ EBar (bar 0) :: evs ++ [ESend (status_request yandex op); EBarClose])
      /\ sent (status_request yandex op) evs = k
      /\ Forall (poll_event (status_request yandex op)) evs.
Proof.
  intros yandex out Hst Hk Hquiet e Hcase.
  destruct (track_progress_raised yandex op w (startup_trace args) k e)
    as (evs & Hrun & Hn & Hev); auto using sent_status_startup.
  { intros pbar s' Hs'.
    destruct Hcase as [(Ht & Hd & ->) | (d & Hp & Hne & Hterm & Hz)].
    - apply poll_once_not_a_dict; rewrite Hs'; assumption.
    - apply (poll_once_bad_progress yandex op w pbar s' d e);
        try rewrite Hs'; assumption. }
  exists evs. split; [|split; assumption].
  rewrite (main_started args w op Hst). unfold bind at 1.
  fold yandex. now rewrite Hrun.
Qed.

Lemma unreadable_status_ends_the_run_witness :
  exists evs,
    main sample_args
      (scripted ok_200 created (accepted sample_href)
         (fun _ => Response 200
                     (Some (JDict [("status", JStr "in-progress");
                                   ("progress", JNull)])))
         ok_200) []
    = (Exc TypeError,
       startup_trace sample_args
         ++ EBar (bar 0) :: evs
         ++ [ESend (status_request (YDConnector_init "secret") "ABC123"); EBarClose])
    /\ sent (status_request (YDConnector_init "secret") "ABC123") evs = 0%nat
    /\ Forall (poll_event (status_request (YDConnector_init "secret") "ABC123")) evs.
Proof.
  apply (unreadable_status_ends_the_run sample_args
           (scripted ok_200 created (accepted sample_href)
              (fun _ => Response 200
                          (Some (JDict [("status", JStr "in-progress");
                                        ("progress", JNull)])))
              ok_200) "ABC123" 0).
  - apply sample_started.
  - lia.
  - intros j Hj. lia.
  - right. eexists. repeat split. discriminate.
Defined.

(** ** After the loop *)

Lemma loop_event_other_request r r' evs :
  Forall (loop_event r) evs -> request_eqb r' r = false -> sent r' evs = 0%nat.
Proof.
  intros H Hne. induction H as [|e evs He _ IH]; [reflexivity|].
  destruct e; cbn in *; try contradiction; auto.
  subst r0. now rewrite Hne, IH.
Qed.

(** When the loop is over, nothing but the startup and the loop has been
    logged: no file info was asked for, the clock was not read, no file was
    written. *)
Lemma after_the_loop args op w r s1 :
  track_progress (YDConnector_init (token args)) op w (startup_trace args) = (r, s1) ->
  sent (file_info_request (YDConnector_init (token args))
          (group args ++ "/" ++ text args ++ ".jpg")) s1 = 0%nat
  /\ clock_reads s1 = 0%nat
  /\ writes s1 = [].
Proof.
  intros H.
  destruct (track_progress_log (YDConnector_init (token args)) op w (startup_trace args))
    as (evs & Hs & F & _ & _ & Hw).
  rewrite H in Hs. cbn [snd] in Hs. subst s1.
  destruct (loop_event_no_write _ _ F) as (_ & _ & _ & Hc).
  rewrite !sent_app, !clock_reads_app, !writes_app, Hc, Hw.
  rewrite (loop_event_other_request _ _ _ F) by reflexivity.
  repeat split.
Qed.

(** X12: whenever the loop ends without an exception, whatever status it
    saw, and the file info is a non-empty object, [main] writes one file
    named after the second reading of the clock, holding the eight fields
    of the manifest in their order: the time of the first reading, the
    folder, the text, the file name, the size and path taken from the file
    info (0 and the empty string when missing), the viewer address of the
    folder and the address of the picture. *)
Theorem manifest_contents args w op pbar s1 info :
  let yandex := YDConnector_init (token args) in
  let file_path := (group args ++ "/" ++ text args ++ ".jpg")%string in
  started args w op ->
  track_progress yandex op w (startup_trace args) = (Val pbar, s1) ->
  respond w (file_info_request yandex file_path) 0 = Response 200 (Some (JDict info)) ->
  info <> [] ->
  (forall name, writable w name = true) ->
  fst (main args w []) = Val tt
  /\ writes (snd (main args w []))
     = [(("backup_info_" ++ strftime_stamp (clock w 1) ++ ".json")%string,
         JDict [("timestamp", JStr (isoformat (clock w 0)));
                ("group_name", JStr (group args));
                ("text", JStr (text args));
                ("file_name", JStr (text args ++ ".jpg"));
                ("file_size", member info "size" (JInt 0));
                ("file_path", member info "path" (JStr ""));
                ("yandex_disk_url",
                 JStr ("https://disk.yandex.ru/client/disk/" ++ group args));
                ("source_url", JStr (cat_template ++ quote (text args)))])].
Proof.
  intros yandex file_path Hst Hrun Hinfo Hne Hw.
  destruct (after_the_loop args op w _ _ Hrun) as (Hs & Hc & Hwr).
  rewrite (main_started args w op Hst). unfold bind at 1 2.
  fold yandex. rewrite Hrun.
  match goal with
  | |- context [save_result ?y ?a ?u ?f ?p w ?s] =>
      destruct (save_result_writes y a u f p w s info) as [Hfst Hwrite];
      [ | exact Hne | exact Hw | ]
  end.
  { fold yandex file_path in Hs. fold file_path. rewrite Hs. exact Hinfo. }
  rewrite Hfst, Hwrite, Hwr, Hc. split; reflexivity.
Qed.

Lemma manifest_contents_witness :
  writes (snd (main sample_args
            (scripted ok_200 created (accepted sample_href)
                      (fun _ => status_only "failed")
                      (Response 200 (Some (JDict [("path", JStr "disk:/cats/hi.jpg")]))))
            []))
  = [("backup_info_20240101_000000.json",
      JDict [("timestamp", JStr "2024-01-01T00:00:00");
             ("group_name", JStr "cats");
             ("text", JStr "hi");
             ("file_name", JStr "hi.jpg");
             ("file_size", JInt 0);
             ("file_path", JStr "disk:/cats/hi.jpg");
             ("yandex_disk_url", JStr "https://disk.yandex.ru/client/disk/cats");
             ("source_url", JStr "https://cataas.com/cat/says/hi")])].
Proof.
  eapply (manifest_contents sample_args
            (scripted ok_200 created (accepted sample_href)
                      (fun _ => status_only "failed")
                      (Response 200 (Some (JDict [("path", JStr "disk:/cats/hi.jpg")]))))
            "ABC123" _ _ [("path", JStr "disk:/cats/hi.jpg")]).
  - apply sample_started.
  - vm_compute. reflexivity.
  - reflexivity.
  - discriminate.
  - reflexivity.
Defined.

(** X13: whenever the loop ends without an exception and the file info is
    none, or a value that counts as false, [main] prints its last message
    and returns: no file is written. *)
Theorem missing_file_reports_failure args w op pbar s1 :
  let yandex := YDConnector_init (token args) in
  let file_path := (group args ++ "/" ++ text args ++ ".jpg")%string in
  started args w op ->
  track_progress yandex op w (startup_trace args) = (Val pbar, s1) ->
  truthy (payload_of (respond w (file_info_request yandex file_path) 0)) = false ->
  main args w []
  = (Val tt,
     s1 ++ [ESend (file_info_request yandex file_path);
            EPrint [Txt "
ОШИБКА: Не удалось загрузить файл на Яндекс.Диск"]])
  /\ writes (snd (main args w [])) = [].
Proof.
  intros yandex file_path Hst Hrun Hinfo.
  destruct (after_the_loop args op w _ _ Hrun) as (Hs & Hc & Hwr).
  assert (E : main args w []
              = (Val tt,
                 s1 ++ [ESend (file_info_request yandex file_path);
                        EPrint [Txt "
ОШИБКА: Не удалось загрузить файл на Яндекс.Диск"]])).
  { rewrite (main_started args w op Hst). unfold bind at 1.
    fold yandex. rewrite Hrun.
    unfold save_result, bind at 1. rewrite get_file_info_run.
    fold file_path. fold yandex file_path in Hs. rewrite Hs, Hinfo.
    cbv [print emit]. now rewrite <- app_assoc. }
  rewrite E. split; [reflexivity|]. cbn [snd]. rewrite writes_app, Hwr. reflexivity.
Qed.

Lemma missing_file_reports_failure_witness :
  writes (snd (main sample_args
            (scripted ok_200 created (accepted sample_href)
                      (fun _ => status_only "success") (Response 404 None))
            [])) = [].
Proof.
  eapply (missing_file_reports_failure sample_args
            (scripted ok_200 created (accepted sample_href)
                      (fun _ => status_only "success") (Response 404 None))
            "ABC123").
  - apply sample_started.
  - vm_compute. reflexivity.
  - reflexivity.
Defined.

(** X14: when the manifest cannot be opened for writing, the exception of
    [open] ends the run: [main] has read the clock twice, has written
    nothing and prints no summary. *)
Theorem unwritable_manifest_raises args w op pbar s1 info :
  let yandex := YDConnector_init (token args) in
  let file_path := (group args ++ "/" ++ text args ++ ".jpg")%string in
  started args w op ->
  track_progress yandex op w (startup_trace args) = (Val pbar, s1) ->
  respond w (file_info_request yandex file_path) 0 = Response 200 (Some (JDict info)) ->
  info <> [] ->
  writable w ("backup_info_" ++ strftime_stamp (clock w 1) ++ ".json") = false ->
  main args w []
  = (Exc OSError, s1 ++ [ESend (file_info_request yandex file_path); ENow; ENow])
  /\ writes (snd (main args w [])) = [].
Proof.
  intros yandex file_path Hst Hrun Hinfo Hne Hw.
  destruct (after_the_loop args op w _ _ Hrun) as (Hs & Hc & Hwr).
  assert (E : main args w []
              = (Exc OSError,
                 s1 ++ [ESend (file_info_request yandex file_path); ENow; ENow])).
  { rewrite (main_started args w op Hst). unfold bind at 1.
    fold yandex. rewrite Hrun.
    unfold save_result, bind at 1. rewrite get_file_info_run.
    fold file_path. fold yandex file_path in Hs. rewrite Hs, Hinfo.
    cbn [payload_of Z.eqb Pos.eqb].
    replace (truthy (JDict info)) with true
      by (destruct info; [contradiction | reflexivity]).
    unfold bind at 1, datetime_now. unfold bind at 1. cbn [dict_get ret].
    unfold bind at 1. cbn [dict_get ret].
    unfold bind at 1, datetime_now. unfold bind at 1, write_json.
    rewrite !clock_reads_app, Hc. cbn [clock_reads Nat.add].
    rewrite Hw. now rewrite <- !app_assoc. }
  rewrite E. split; [reflexivity|]. cbn [snd]. rewrite writes_app, Hwr. reflexivity.
Qed.

Lemma unwritable_manifest_raises_witness :
  fst (main sample_args (read_only bare_info_world) []) = Exc OSError
  /\ writes (snd (main sample_args (read_only bare_info_world) [])) = [].
Proof.
  pose proof (fun pbar s1 =>
                unwritable_manifest_raises sample_args (read_only bare_info_world)
                  "ABC123" pbar s1 [("size", JInt 1234)]) as H.
  cbv zeta in H. edestruct H as [E Hw].
  - repeat split.
    + eexists. reflexivity.
    + exists 201, (Some (JDict [])). split; [reflexivity | now left].
    + eexists _, sample_href. repeat split.
    + discriminate.
  - vm_compute. reflexivity.
  - reflexivity.
  - discriminate.
  - reflexivity.
  - split; [exact (f_equal fst E) | exact Hw].
Defined.

(** ** The encoding of the text *)

Lemma hex_value_digit k : (k < 16)%nat -> hex_value (hex_digit k) = k.
Proof.
  intros H. do 16 (destruct k as [|k]; [reflexivity|]). lia.
Qed.

Lemma percent_decode_kept c r :
  kept c = true -> percent_decode (String c r) = String c (percent_decode r).
Proof.
  intros H. cbn [percent_decode].
  destruct (Ascii.eqb_spec c "%") as [->|_]; [discriminate H | reflexivity].
Qed.

Lemma percent_decode_escape c r :
  percent_decode (percent c ++ r) = String c (percent_decode r).
Proof.
  unfold percent. cbn [append percent_decode Ascii.eqb Bool.eqb].
  pose proof (nat_ascii_bounded c) as Hb.
  rewrite !hex_value_digit.
  - rewrite <- Nat.div_mod_eq. now rewrite ascii_nat_embedding.
  - apply Nat.mod_upper_bound. discriminate.
  - apply Nat.Div0.div_lt_upper_bound. exact Hb.
Qed.

Lemma percent_decode_quote text : percent_decode (quote text) = text.
Proof.
  unfold quote. induction text as [|c text IH]; [reflexivity|].
  cbn [quote_from_bytes str_mem]. rewrite orb_false_r.
  fold (kept c). destruct (kept c) eqn:E.
  - cbn [append]. now rewrite percent_decode_kept, IH.
  - now rewrite percent_decode_escape, IH.
Qed.

Lemma quote_injective text text' : quote text = quote text' -> text = text'.
Proof.
  intros H.
  rewrite <- (percent_decode_quote text), <- (percent_decode_quote text').
  now rewrite H.
Qed.

(** X15: the encoding loses nothing: two texts with different UTF-8
    encodings both get an address, and the two addresses differ. *)
Theorem cat_url_tells_texts_apart text text' b b' w s :
  utf8 text = Some b ->
  utf8 text' = Some b' ->
  b <> b' ->
  exists url url',
    fst (get_cat_with_text text w s) = Val (Some url)
    /\ fst (get_cat_with_text text' w s) = Val (Some url')
    /\ url <> url'.
Proof.
  intros Hb Hb' Hne. rewrite !get_cat_with_text_run, Hb, Hb'. cbn [fst].
  eexists _, _. split; [reflexivity | split; [reflexivity|]].
  intros H. apply Hne, quote_injective.
  unfold cat_template in H. cbn [append] in H. now injection H.
Qed.

Lemma cat_url_tells_texts_apart_witness :
  exists url url',
    fst (get_cat_with_text (of_utf8 "a b") bare_info_world []) = Val (Some url)
    /\ fst (get_cat_with_text (of_utf8 "a%20b") bare_info_world []) = Val (Some url')
    /\ url <> url'.
Proof.
  apply (cat_url_tells_texts_apart (of_utf8 "a b") (of_utf8 "a%20b") "a b" "a%20b"
           bare_info_world []).
  - reflexivity.
  - reflexivity.
  - discriminate.
Defined.

Lemma length_quote_step c rest :
  String.length (quote (String c rest))
  = ((if kept c then 1 else 3) + String.length (quote rest))%nat.
Proof.
  unfold quote. cbn [quote_from_bytes str_mem]. rewrite orb_false_r.
  fold (kept c). destruct (kept c); rewrite length_append; reflexivity.
Qed.

Lemma length_quote text :
  (String.length text <= String.length (quote text) <= 3 * String.length text)%nat.
Proof.
  induction text as [|c text IH]; [cbn; lia|].
  rewrite length_quote_step. cbn [String.length]. destruct (kept c); lia.
Qed.

Lemma quote_fixed_points text : quote text = text <-> all_kept text = true.
Proof.
  induction text as [|c text IH]; [now split|].
  cbn [all_kept]. split.
  - intros H. pose proof (f_equal String.length H) as HL.
    rewrite length_quote_step in HL. cbn [String.length] in HL.
    pose proof (length_quote text) as Hb.
    destruct (kept c) eqn:E; [|lia].
    unfold quote in H. cbn [quote_from_bytes str_mem] in H.
    rewrite orb_false_r in H. fold (kept c) in H. rewrite E in H.
    cbn [append] in H. injection H as H. cbn [andb]. now apply IH.
  - intros H. apply andb_true_iff in H as [E H].
    unfold quote. cbn [quote_from_bytes str_mem]. rewrite orb_false_r.
    fold (kept c). rewrite E. cbn [append]. f_equal. now apply IH.
Qed.

(** X16: for a text whose UTF-8 encoding has [n] bytes, the address is the
    template followed by at least [n] and at most [3 * n] characters, and
    what follows the template is the encoding itself exactly when that
    holds nothing but ASCII letters, digits, [_.-~] and slashes. *)
Theorem quote_length_and_fixed_points text b w s :
  utf8 text = Some b ->
  exists encoded,
    fst (get_cat_with_text text w s) = Val (Some (cat_template ++ encoded)%string)
    /\ (String.length b <= String.length encoded <= 3 * String.length b)%nat
    /\ (encoded = b <-> all_kept b = true).
Proof.
  intros Hb. rewrite get_cat_with_text_run, Hb. exists (quote b).
  split; [reflexivity | split; [apply length_quote | apply quote_fixed_points]].
Qed.

Lemma quote_length_and_fixed_points_witness :
  exists encoded,
    fst (get_cat_with_text (of_utf8 "кот") bare_info_world [])
    = Val (Some (cat_template ++ encoded)%string)
    /\ (6 <= String.length encoded <= 18)%nat
    /\ (encoded = "кот" <-> all_kept "кот" = true).
Proof.
  apply (quote_length_and_fixed_points (of_utf8 "кот") "кот" bare_info_world []).
  reflexivity.
Defined.

(** ** The requests of a run that ends well *)

Lemma poll_events_requests r evs :
  Forall (poll_event r) evs -> requests evs = List.repeat r (sent r evs).
Proof.
  induction 1 as [|e evs He _ IH]; [reflexivity|].
  destruct He as [-> | [[b ->] | ->]]; cbn [requests sent]; auto.
  rewrite request_eqb_refl. cbn. now rewrite IH.
Qed.

Lemma requests_app s s' : requests (s ++ s') = requests s ++ requests s'.
Proof.
  induction s as [|e s IH]; simpl; [reflexivity|].
  destruct e; rewrite ?IH; reflexivity.
Qed.

Lemma no_sends_no_requests s : total is_send s = 0%nat -> requests s = [].
Proof.
  induction s as [|e s IH]; [reflexivity|].
  destruct e; cbn; auto. discriminate.
Qed.

Lemma save_result_sends_once self args cat_url file_name file_path :
  emits (fun _ => True) is_send 1 (save_result self args cat_url file_name file_path).
Proof.
  eapply emits_weaken.
  - unfold save_result, get_file_info. cbv zeta. repeat (emits_step; api_side).
  - cbn. lia.
Qed.

(** X17: in a run where the status "success" comes at the poll after [k]
    polls without news, the requests are, in this order: the token check,
    the folder creation, the upload, [k + 1] status requests and the file
    info, and nothing else. *)
Theorem requests_of_a_successful_run args w op k d :
  let yandex := YDConnector_init (token args) in
  let file_path := (group args ++ "/" ++ text args ++ ".jpg")%string in
  let cat_url := (cat_template ++ quote (text args))%string in
  started args w op ->
  (k < 20)%nat ->
  (forall j, (j < k)%nat -> no_news (respond w (status_request yandex op) j) = true) ->
  respond w (status_request yandex op) k = Response 200 (Some (JDict d)) ->
  assoc "status" d = Some (JStr "success") ->
  requests (snd (main args w []))
  = [check_token_request yandex; create_folder_request yandex (group args);
     upload_request yandex cat_url file_path]
      ++ List.repeat (status_request yandex op) (S k)
      ++ [file_info_request yandex file_path].
Proof.
  intros yandex file_path cat_url Hst Hk Hquiet Hok Hd.
  destruct (member_status_success d Hd) as [Hne Hf].
  destruct (track_progress_decided yandex op w (startup_trace args) k
              (fun pbar => Tqdm.mk (Tqdm.total pbar) (Tqdm.desc pbar)
                                   (Tqdm.unit pbar)
                                   (Tqdm.n pbar + (100 - Tqdm.n pbar)))
              (fun pbar =>
                 [ESend (status_request yandex op);
                  EBar (Tqdm.mk (Tqdm.total pbar) (Tqdm.desc pbar)
                                (Tqdm.unit pbar)
                                (Tqdm.n pbar + (100 - Tqdm.n pbar)))]))
    as (evs & pbar & Hrun & Hn & Hev); auto using sent_status_startup.
  { intros pbar s' Hs'. apply (poll_once_success yandex op w pbar s' d); auto.
    rewrite Hs', Hok. reflexivity. }
  rewrite (main_started args w op Hst). unfold bind at 1.
  fold yandex. rewrite Hrun.
  match goal with
  | |- context [save_result ?y ?a ?u ?f ?p w ?s] =>
      destruct (save_result_asks y a u f p w s) as [rest Hrest];
      destruct (save_result_sends_once y a u f p w s) as (e & He & _ & Hb);
      rewrite He in Hrest; apply app_inv_head in Hrest; subst e; rewrite He
  end.
  cbn [total is_send] in Hb.
  rewrite !requests_app. cbn [requests app].
  rewrite !requests_app. cbn [requests app].
  rewrite (poll_events_requests _ _ Hev), Hn.
  rewrite (no_sends_no_requests rest) by lia.
  fold cat_url file_path.
  replace (S k) with (k + 1)%nat by lia. rewrite repeat_app.
  rewrite <- !app_assoc. reflexivity.
Qed.

Lemma requests_of_a_successful_run_witness :
  requests (snd (main sample_args
              (scripted ok_200 created (accepted sample_href)
                 (fun k => match k with
                           | 0%nat => in_progress float_0_3
                           | _ => status_only "success"
                           end)
                 ok_200) []))
  = [check_token_request (YDConnector_init "secret");
     create_folder_request (YDConnector_init "secret") "cats";
     upload_request (YDConnector_init "secret")
                    "https://cataas.com/cat/says/hi" "cats/hi.jpg";
     status_request (YDConnector_init "secret") "ABC123";
     status_request (YDConnector_init "secret") "ABC123";
     file_info_request (YDConnector_init "secret") "cats/hi.jpg"].
Proof.
  apply (requests_of_a_successful_run sample_args _ "ABC123" 1
           [("status", JStr "success")]).
  - apply sample_started.
  - lia.
  - intros [|j] Hj; [reflexivity | lia].
  - reflexivity.
  - reflexivity.
Defined.
